(** * ai-study-buddy: the handlers of [src/App.js]

    A shallow embedding of the event handlers of the [App] component:
    [getAiResponse], [handleMbtiSelect], the [onSnapshot] callback of the
    history subscription and the click handler of a history entry.

    React state is a record; a handler reads the values its closure captured
    when it was created and writes through setters that act on the live
    state.  A handler that awaits is a tree ([Proc]) whose nodes are the
    requests it issues and whose branches are the continuations after each
    outcome; [run] plays such a tree against an environment that answers the
    requests, and records every request together with the state of the UI at
    the moment it was issued. *)

From Stdlib Require Import String Ascii List Bool ZArith QArith Lia.
From Stdlib Require Import Permutation Sorted.
Import ListNotations.

Local Close Scope Q_scope.
Local Open Scope string_scope.
Local Open Scope list_scope.
Local Set Warnings "-register-all".

(** ** JavaScript values *)

(** What [JSON.parse] can return.  Numbers are kept as rationals: the
    program only ever asks whether one is zero. *)
Inductive json : Type :=
| JNull
| JBool (b : bool)
| JNum (q : Q)
| JStr (s : string)
| JArr (items : list json)
| JObj (fields : list (string * json)).

(** A value that may be [undefined]. *)
Definition jsval : Type := option json.
Definition undefined : jsval := None.

Fixpoint assoc {A : Type} (key : string) (fields : list (string * A)) : option A :=
  match fields with
  | [] => None
  | (k, v) :: rest => if k =? key then Some v else assoc key rest
  end.

(** [v.name] on a value that is neither [null] nor [undefined], for the
    names the program reads ([candidates], [content], [parts], [text]): only
    an object can own them, no prototype of a parsed value defines them. *)
Definition js_dot (v : json) (name : string) : jsval :=
  match v with
  | JObj fields => assoc name fields
  | _ => undefined
  end.

(** [v[0]] on a value that is neither [null] nor [undefined]: the first
    element of an array, the first unit of a string, the property ["0"] of
    an object. *)
Definition js_idx0 (v : json) : jsval :=
  match v with
  | JArr items => nth_error items 0
  | JStr (String c _) => Some (JStr (String c EmptyString))
  | JObj fields => assoc "0" fields
  | _ => undefined
  end.

(** Optional chaining [v?.f]: [undefined] when [v] is [null] or [undefined]. *)
Definition opt_chain (v : jsval) (f : json -> jsval) : jsval :=
  match v with
  | None => undefined
  | Some JNull => undefined
  | Some x => f x
  end.

Definition truthy (v : jsval) : bool :=
  match v with
  | None => false
  | Some JNull => false
  | Some (JBool b) => b
  | Some (JNum q) => negb (Qeq_bool q 0)
  | Some (JStr s) => negb (s =? "")
  | Some (JArr _) => true
  | Some (JObj _) => true
  end.

(** [v || d] *)
Definition js_or (v : jsval) (d : json) : json :=
  match v with
  | Some x => if truthy v then x else d
  | None => d
  end.

(** Truthiness of a string, and of a state slot that holds a string or [null]. *)
Definition truthy_str (s : string) : bool := negb (s =? "").

Definition truthy_slot (s : option string) : bool :=
  match s with
  | Some x => truthy_str x
  | None => false
  end.

Definition is_some {A : Type} (o : option A) : bool :=
  match o with
  | Some _ => true
  | None => false
  end.

(** A settled promise. *)
Inductive Settled (A : Type) : Type :=
| Fulfilled (value : A)
| Rejected (message : string).
Arguments Fulfilled {A} value.
Arguments Rejected {A} message.

(** ** Data *)

(** The sixteen profile categories of the first-run modal. *)
Definition mbtiTypes : list string :=
  [ "INTJ"; "INTP"; "ENTJ"; "ENTP";
    "INFJ"; "INFP"; "ENFJ"; "ENFP";
    "ISTJ"; "ISFJ"; "ESTJ"; "ESFJ";
    "ISTP"; "ISFP"; "ESTP"; "ESFP" ].

(** The ids of the five tabs. *)
Definition tabs : list string := [ "mentor"; "qa"; "summary"; "quiz"; "image" ].

Inductive Firestore : Type := FirestoreInstance.

(** The [File] picked in the file input: its [name] and [type]. *)
Record File : Type := { file_name : string; file_type : string }.

(** A Firestore [Timestamp]: the seconds since the epoch and the
    nanoseconds of the second (0 to 999999999). *)
Record Timestamp : Type := { seconds : Z; nanoseconds : Z }.

(** [t.toDate()] as the number a [Date] becomes under subtraction, its
    milliseconds since the epoch: [toMillis()] is
    [seconds * 1000 + nanoseconds / 1e6], of which the [Date] keeps the
    integer part.  What lies below the millisecond is lost. *)
Definition toDate (t : Timestamp) : Z :=
  Z.quot (seconds t * 1000000000 + nanoseconds t) 1000000.

(** [Timestamp.fromMillis(ms)] *)
Definition fromMillis (ms : Z) : Timestamp :=
  {| seconds := ms / 1000; nanoseconds := (ms mod 1000) * 1000000 |}.

(** A document of the history collection as the snapshot delivers it, with
    the [id] added by the callback.  [timestamp] is [None] while the server
    has not resolved it. *)
Record HistoryItem : Type := {
  id : string;
  type : string;
  item_prompt : string;
  item_response : json;
  mbti : option string;
  timestamp : option Timestamp
}.

(** The [timestamp] field of a document being written. *)
Inductive TimestampField : Type :=
| serverTimestamp
| clientTimestamp (ms : Z).

(** The data [getAiResponse] hands to [addDoc]. *)
Record ExchangeData : Type := {
  data_type : string;
  data_prompt : string;
  data_response : json;
  data_mbti : option string;
  data_timestamp : TimestampField
}.

(** The body of the request to the generative endpoint. *)
Inductive Part : Type :=
| TextPart (text : string)
| InlineDataPart (mimeType : string) (data : string).

Record Content : Type := { role : string; parts : list Part }.
Record Payload : Type := { contents : list Content }.

(** ** Component state *)

Record State : Type := {
  db : option Firestore;
  userId : option string;
  activeTab : string;
  prompt : string;
  imageFile : option File;
  imageBase64 : option string;
  response : json;
  isLoading : bool;
  history : list HistoryItem;
  error : string;
  fileInputRef : option string;  (* [current.value] of the mounted file input *)
  studentMbti : option string;
  showMbtiModal : bool
}.

Definition setActiveTab (v : string) (s : State) : State :=
  {| db := db s; userId := userId s; activeTab := v; prompt := prompt s;
     imageFile := imageFile s; imageBase64 := imageBase64 s;
     response := response s; isLoading := isLoading s; history := history s;
     error := error s; fileInputRef := fileInputRef s;
     studentMbti := studentMbti s; showMbtiModal := showMbtiModal s |}.

Definition setPrompt (v : string) (s : State) : State :=
  {| db := db s; userId := userId s; activeTab := activeTab s; prompt := v;
     imageFile := imageFile s; imageBase64 := imageBase64 s;
     response := response s; isLoading := isLoading s; history := history s;
     error := error s; fileInputRef := fileInputRef s;
     studentMbti := studentMbti s; showMbtiModal := showMbtiModal s |}.

Definition setImageFile (v : option File) (s : State) : State :=
  {| db := db s; userId := userId s; activeTab := activeTab s; prompt := prompt s;
     imageFile := v; imageBase64 := imageBase64 s;
     response := response s; isLoading := isLoading s; history := history s;
     error := error s; fileInputRef := fileInputRef s;
     studentMbti := studentMbti s; showMbtiModal := showMbtiModal s |}.

Definition setImageBase64 (v : option string) (s : State) : State :=
  {| db := db s; userId := userId s; activeTab := activeTab s; prompt := prompt s;
     imageFile := imageFile s; imageBase64 := v;
     response := response s; isLoading := isLoading s; history := history s;
     error := error s; fileInputRef := fileInputRef s;
     studentMbti := studentMbti s; showMbtiModal := showMbtiModal s |}.

Definition setResponse (v : json) (s : State) : State :=
  {| db := db s; userId := userId s; activeTab := activeTab s; prompt := prompt s;
     imageFile := imageFile s; imageBase64 := imageBase64 s;
     response := v; isLoading := isLoading s; history := history s;
     error := error s; fileInputRef := fileInputRef s;
     studentMbti := studentMbti s; showMbtiModal := showMbtiModal s |}.

Definition setIsLoading (v : bool) (s : State) : State :=
  {| db := db s; userId := userId s; activeTab := activeTab s; prompt := prompt s;
     imageFile := imageFile s; imageBase64 := imageBase64 s;
     response := response s; isLoading := v; history := history s;
     error := error s; fileInputRef := fileInputRef s;
     studentMbti := studentMbti s; showMbtiModal := showMbtiModal s |}.

Definition setHistory (v : list HistoryItem) (s : State) : State :=
  {| db := db s; userId := userId s; activeTab := activeTab s; prompt := prompt s;
     imageFile := imageFile s; imageBase64 := imageBase64 s;
     response := response s; isLoading := isLoading s; history := v;
     error := error s; fileInputRef := fileInputRef s;
     studentMbti := studentMbti s; showMbtiModal := showMbtiModal s |}.

Definition setError (v : string) (s : State) : State :=
  {| db := db s; userId := userId s; activeTab := activeTab s; prompt := prompt s;
     imageFile := imageFile s; imageBase64 := imageBase64 s;
     response := response s; isLoading := isLoading s; history := history s;
     error := v; fileInputRef := fileInputRef s;
     studentMbti := studentMbti s; showMbtiModal := showMbtiModal s |}.

Definition setStudentMbti (v : option string) (s : State) : State :=
  {| db := db s; userId := userId s; activeTab := activeTab s; prompt := prompt s;
     imageFile := imageFile s; imageBase64 := imageBase64 s;
     response := response s; isLoading := isLoading s; history := history s;
     error := error s; fileInputRef := fileInputRef s;
     studentMbti := v; showMbtiModal := showMbtiModal s |}.

Definition setShowMbtiModal (v : bool) (s : State) : State :=
  {| db := db s; userId := userId s; activeTab := activeTab s; prompt := prompt s;
     imageFile := imageFile s; imageBase64 := imageBase64 s;
     response := response s; isLoading := isLoading s; history := history s;
     error := error s; fileInputRef := fileInputRef s;
     studentMbti := studentMbti s; showMbtiModal := v |}.

(** [if (fileInputRef.current) fileInputRef.current.value = ""] *)
Definition resetFileInput (s : State) : State :=
  {| db := db s; userId := userId s; activeTab := activeTab s; prompt := prompt s;
     imageFile := imageFile s; imageBase64 := imageBase64 s;
     response := response s; isLoading := isLoading s; history := history s;
     error := error s;
     fileInputRef := match fileInputRef s with Some _ => Some "" | None => None end;
     studentMbti := studentMbti s; showMbtiModal := showMbtiModal s |}.

(** The state of a freshly mounted component. *)
Definition initialState : State :=
  {| db := None; userId := None; activeTab := "mentor"; prompt := "";
     imageFile := None; imageBase64 := None; response := JStr "";
     isLoading := false; history := []; error := ""; fileInputRef := None;
     studentMbti := None; showMbtiModal := false |}.

(** ** Handlers as trees of requests *)

(** What [fetch] resolves to: the status flag, the status text and what
    [json()] settles to. *)
Record HttpResponse : Type := {
  ok : bool;
  statusText : string;
  json_body : Settled json
}.

(** A handler: state updates, the three awaited requests with a
    continuation per outcome, normal completion, or an exception that
    leaves the handler. *)
Inductive Proc : Type :=
| Done
| Uncaught (message : string)
| Update (f : State -> State) (k : Proc)
| Fetch (url : string) (body : Payload) (k : Settled HttpResponse -> Proc)
| AddDoc (path : string) (data : ExchangeData) (k : Settled string -> Proc)
| SetDoc (path : string) (mbtiField : string) (k : Settled unit -> Proc).

Notation "f ;; k" := (Update f k) (at level 61, right associativity).

(** A request that left the component, with the UI state at that moment. *)
Inductive Request : Type :=
| ReqFetch (url : string) (body : Payload)
| ReqAddDoc (path : string) (data : ExchangeData)
| ReqSetDoc (path : string) (mbtiField : string).

Record Call : Type := { call_request : Request; call_ui : State }.

(** The services answering the requests. *)
Record Env : Type := {
  fetch : string -> Payload -> Settled HttpResponse;
  addDoc : string -> ExchangeData -> Settled string;
  setDoc : string -> string -> Settled unit
}.

(** The document store: the documents added to each collection, oldest
    first, and the [mbti] field merged into each profile document, latest
    first. *)
Record Remote : Type := {
  added : list (string * ExchangeData);
  merged : list (string * string)
}.

Definition emptyRemote : Remote := {| added := []; merged := [] |}.

Definition remote_addDoc (path : string) (data : ExchangeData) (r : Remote) : Remote :=
  {| added := added r ++ [(path, data)]; merged := merged r |}.

Definition remote_setDoc (path : string) (mbtiField : string) (r : Remote) : Remote :=
  {| added := added r; merged := (path, mbtiField) :: merged r |}.

Record Outcome : Type := {
  ui : State;
  remote : Remote;
  calls : list Call;
  uncaught : option string
}.

(** A write reaches the store exactly when its promise fulfils. *)
Fixpoint run (env : Env) (p : Proc) (st : State) (rm : Remote) (tr : list Call) : Outcome :=
  match p with
  | Done => {| ui := st; remote := rm; calls := tr; uncaught := None |}
  | Uncaught message => {| ui := st; remote := rm; calls := tr; uncaught := Some message |}
  | Update f k => run env k (f st) rm tr
  | Fetch url body k =>
      run env (k (fetch env url body)) st rm
          (tr ++ [{| call_request := ReqFetch url body; call_ui := st |}])
  | AddDoc path data k =>
      let answer := addDoc env path data in
      run env (k answer) st
          (match answer with Fulfilled _ => remote_addDoc path data rm | Rejected _ => rm end)
          (tr ++ [{| call_request := ReqAddDoc path data; call_ui := st |}])
  | SetDoc path mbtiField k =>
      let answer := setDoc env path mbtiField in
      run env (k answer) st
          (match answer with Fulfilled _ => remote_setDoc path mbtiField rm | Rejected _ => rm end)
          (tr ++ [{| call_request := ReqSetDoc path mbtiField; call_ui := st |}])
  end.

(** A handler invoked on the state [st] with the store [rm]: the closure
    holds [st], the setters act on the live state, which starts as [st]. *)
Definition invoke (env : Env) (handler : State -> Proc) (st : State) (rm : Remote) : Outcome :=
  run env (handler st) st rm [].

Definition is_fetch (c : Call) : bool :=
  match call_request c with ReqFetch _ _ => true | _ => false end.

Definition is_addDoc (c : Call) : bool :=
  match call_request c with ReqAddDoc _ _ => true | _ => false end.

Definition is_setDoc (c : Call) : bool :=
  match call_request c with ReqSetDoc _ _ => true | _ => false end.

(** ** What the page is loaded with *)

(** [appId] is the application id of the deployment; [typeErrorMessage] is
    the text the engine gives the [TypeError] of a property read on [null]. *)
Record Host : Type := { appId : string; typeErrorMessage : string }.

(** [`${v}`] for a state slot. *)
Definition interpolate (v : option string) : string :=
  match v with
  | Some x => x
  | None => "null"
  end.

Definition userDocPath (h : Host) (s : State) : string :=
  "/artifacts/" ++ appId h ++ "/users/" ++ interpolate (userId s).

Definition historyCollectionPath (h : Host) (s : State) : string :=
  "/artifacts/" ++ appId h ++ "/users/" ++ interpolate (userId s) ++ "/studyHistory".

(** ** The texts of the program *)

Definition emptyInputMessage : string := "질문, 텍스트 또는 이미지를 입력해주세요.".
Definition mbtiNeededMessage : string := "멘토링을 시작하기 전에 MBTI를 선택해주세요.".
Definition apiErrorPrefix : string := "AI 응답 생성 중 오류가 발생했습니다: ".
Definition requestFailedPrefix : string := "API 요청 실패: ".
Definition noValidResponse : string := "유효한 응답을 받지 못했습니다.".
Definition mbtiSaveFailedMessage : string := "MBTI 정보를 저장하는 데 실패했습니다.".
Definition historyFailedMessage : string := "학습 기록을 불러오는 데 실패했습니다.".

Definition apiKey : string := "".
Definition apiUrl : string :=
  "https://generativelanguage.googleapis.com/v1beta/models/gemini-2.0-flash:generateContent?key="
  ++ apiKey.

Definition qaPrefix : string := "다음 질문에 대해 자세히 답변해줘: ".
Definition summaryPrefix : string := "다음 텍스트를 핵심만 간추려 요약해줘: ".
Definition quizPrefix : string :=
  "다음 내용이나 주제를 바탕으로 객관식 퀴즈 3개를 만들어줘. 각 질문 뒤에 정답도 알려줘: ".
Definition imagePrefix : string := "이 이미지에 대해 다음 질문에 답변해줘: ".

(** The double quote character. *)
Definition dquote : string := String (ascii_of_nat 34) EmptyString.

(** The mentor template, cut at its three interpolations; the line breaks
    and the indentation of the template literal are part of the text. *)
Definition mentorIntro : string := "
                당신은 초등학생을 위한 AI 학습 멘토입니다. 이 학생의 MBTI는 ".
Definition mentorRules : string := "입니다.
                당신의 역할은 정답을 직접 알려주는 것이 아니라, 학생이 스스로 문제를 해결하도록 돕는 것입니다.
                다음 규칙을 반드시 지켜주세요:
                1. 절대로 문제의 최종 정답을 말하지 마세요.
                2. 학생의 질문에 대해, 문제를 해결하기 위해 어떤 개념을 알아야 하는지, 혹은 어떤 순서로 접근하면 좋을지 단계별로 안내해주세요.
                3. 친절하고 격려하는 말투를 사용하며, 학생의 MBTI(".
Definition mentorQuestion : string := ") 성향을 고려하여 소통해주세요.
                4. 어려운 용어는 초등학생 눈높이에 맞춰 쉽게 설명해주세요.

                학생의 질문: ".
Definition mentorEnd : string := "
            ".

Definition mentorTemplate (studentMbti : option string) (prompt : string) : string :=
  mentorIntro ++ interpolate studentMbti
  ++ mentorRules ++ interpolate studentMbti
  ++ mentorQuestion ++ dquote ++ prompt ++ dquote ++ mentorEnd.

(** ** [getAiResponse] *)

(** The [finally] block. *)
Definition finallyBlock : Proc :=
  setIsLoading false ;;
  setPrompt "" ;;
  setImageFile None ;;
  setImageBase64 None ;;
  resetFileInput ;;
  Done.

(** The [catch] block, entered with [err.message], then [finally]. *)
Definition catchBlock (message : string) : Proc :=
  setError (apiErrorPrefix ++ message) ;;
  finallyBlock.

(** The template of the active tab around the prompt. *)
Definition fullPrompt (s : State) : string :=
  if activeTab s =? "mentor" then mentorTemplate (studentMbti s) (prompt s)
  else if activeTab s =? "qa" then qaPrefix ++ prompt s
  else if activeTab s =? "summary" then summaryPrefix ++ prompt s
  else if activeTab s =? "quiz" then quizPrefix ++ prompt s
  else if activeTab s =? "image" then imagePrefix ++ prompt s
  else prompt s.

Definition pushPart (p : Part) (payload : Payload) : Payload :=
  match contents payload with
  | c :: rest => {| contents := {| role := role c; parts := parts c ++ [p] |} :: rest |}
  | [] => payload
  end.

(** The request body.  [None] when [imageFile.type] is read while
    [imageFile] is [null]: a [TypeError] outside the [try]. *)
Definition buildPayload (s : State) : option Payload :=
  let payload := {| contents := [ {| role := "user"; parts := [ TextPart (fullPrompt s) ] |} ] |} in
  match imageBase64 s with
  | Some base64 =>
      if (activeTab s =? "image") && truthy_str base64 then
        match imageFile s with
        | Some f => Some (pushPart (InlineDataPart (file_type f) base64) payload)
        | None => None
        end
      else Some payload
  | None => Some payload
  end.

(** [candidates?.[0]?.content?.parts?.[0]?.text] below [result.candidates]. *)
Definition firstText (candidates : jsval) : jsval :=
  opt_chain (opt_chain (opt_chain (opt_chain (opt_chain candidates
    js_idx0)
    (fun v => js_dot v "content"))
    (fun v => js_dot v "parts"))
    js_idx0)
    (fun v => js_dot v "text").

(** [result.candidates?.[0]?.content?.parts?.[0]?.text || "..."]; the first
    read is not optional and throws on [null]. *)
Definition generatedText (h : Host) (result : json) : Settled json :=
  match result with
  | JNull => Rejected (typeErrorMessage h)
  | _ => Fulfilled (js_or (firstText (js_dot result "candidates")) (JStr noValidResponse))
  end.

(** The document written after an answer. *)
Definition exchangeOf (s : State) (answer : json) : ExchangeData :=
  {| data_type := activeTab s;
     data_prompt := prompt s;
     data_response := answer;
     data_mbti := if truthy_slot (studentMbti s) then studentMbti s else None;
     data_timestamp := serverTimestamp |}.

(** The body of the [try] once [fetch] has resolved to [apiResponse]. *)
Definition afterFetch (h : Host) (s : State) (apiResponse : HttpResponse) : Proc :=
  if negb (ok apiResponse) then catchBlock (requestFailedPrefix ++ statusText apiResponse)
  else
    match json_body apiResponse with
    | Rejected message => catchBlock message
    | Fulfilled result =>
        match generatedText h result with
        | Rejected message => catchBlock message
        | Fulfilled answer =>
            setResponse answer ;;
            if is_some (db s) && truthy_slot (userId s) then
              AddDoc (historyCollectionPath h s) (exchangeOf s answer)
                (fun written =>
                   match written with
                   | Fulfilled _ => finallyBlock
                   | Rejected message => catchBlock message
                   end)
            else finallyBlock
        end
    end.

(** [!prompt && !imageBase64] *)
Definition inputMissing (s : State) : bool :=
  negb (truthy_str (prompt s)) && negb (truthy_slot (imageBase64 s)).

(** [activeTab === 'mentor' && !studentMbti] *)
Definition mbtiMissing (s : State) : bool :=
  (activeTab s =? "mentor") && negb (truthy_slot (studentMbti s)).

Definition getAiResponse (h : Host) (s : State) : Proc :=
  if inputMissing s then
    setError emptyInputMessage ;;
    Done
  else if mbtiMissing s then
    setError mbtiNeededMessage ;;
    setShowMbtiModal true ;;
    Done
  else
    setIsLoading true ;;
    setResponse (JStr "") ;;
    setError "" ;;
    match buildPayload s with
    | None => Uncaught (typeErrorMessage h)
    | Some payload =>
        Fetch apiUrl payload
          (fun settled =>
             match settled with
             | Rejected message => catchBlock message
             | Fulfilled apiResponse => afterFetch h s apiResponse
             end)
    end.

(** ** [handleMbtiSelect] *)

Definition handleMbtiSelect (h : Host) (choice : string) (s : State) : Proc :=
  if negb (is_some (db s)) || negb (truthy_slot (userId s)) then Done
  else
    setStudentMbti (Some choice) ;;
    SetDoc (userDocPath h s) choice
      (fun saved =>
         match saved with
         | Fulfilled _ => setShowMbtiModal false ;; Done
         | Rejected _ => setError mbtiSaveFailedMessage ;; Done
         end).

(** ** The history subscription *)

(** [(a, b) => (b.timestamp?.toDate() || 0) - (a.timestamp?.toDate() || 0)]:
    a [Date] is truthy whatever its instant, and the subtraction turns it
    into its milliseconds. *)
Definition dateOrZero (x : HistoryItem) : Z :=
  match timestamp x with
  | Some t => toDate t
  | None => 0
  end.

Definition compareFn (a b : HistoryItem) : Z := (dateOrZero b - dateOrZero a)%Z.

(** [Array.prototype.sort] with a comparison function: a stable sort.  For
    a comparison that is a consistent ordering, as [compareFn] is, every
    stable sort returns the same array; this one inserts from the right. *)
Fixpoint sortInsert {A : Type} (cmp : A -> A -> Z) (x : A) (l : list A) : list A :=
  match l with
  | [] => [x]
  | y :: rest => if (cmp x y <=? 0)%Z then x :: l else y :: sortInsert cmp x rest
  end.

Definition arraySort {A : Type} (cmp : A -> A -> Z) (l : list A) : list A :=
  fold_right (sortInsert cmp) [] l.

(** The data of a stored document as [doc.data()] returns it. *)
Record DocumentData : Type := {
  doc_type : string;
  doc_prompt : string;
  doc_response : json;
  doc_mbti : option string;
  doc_timestamp : option Timestamp
}.

Record QueryDocumentSnapshot : Type := { doc_id : string; doc_data : DocumentData }.

(** [{ id: doc.id, ...doc.data() }] *)
Definition itemOf (doc : QueryDocumentSnapshot) : HistoryItem :=
  {| id := doc_id doc;
     type := doc_type (doc_data doc);
     item_prompt := doc_prompt (doc_data doc);
     item_response := doc_response (doc_data doc);
     mbti := doc_mbti (doc_data doc);
     timestamp := doc_timestamp (doc_data doc) |}.

(** The [onSnapshot] callback on a snapshot of the whole collection. *)
Definition onSnapshotNext (querySnapshot : list QueryDocumentSnapshot) (s : State) : Proc :=
  let historyData := map itemOf querySnapshot in
  setHistory (arraySort compareFn historyData) ;;
  Done.

Definition onSnapshotError (s : State) : Proc :=
  setError historyFailedMessage ;;
  Done.

(** ** The click on a history entry *)

Definition historyItemClick (item : HistoryItem) (s : State) : Proc :=
  setResponse (item_response item) ;;
  setPrompt (item_prompt item) ;;
  setActiveTab (type item) ;;
  Done.

(** The click on a tab. *)
Definition tabButtonClick (tab : string) (s : State) : Proc :=
  setActiveTab tab ;;
  Done.

(** ** Vocabulary of the statements *)

(** The state once the first three setters of a submission have run. *)
Definition started (s : State) : State :=
  setError "" (setResponse (JStr "") (setIsLoading true s)).

(** The state once the [finally] block has run. *)
Definition cleared (s : State) : State :=
  resetFileInput (setImageBase64 None (setImageFile None (setPrompt "" (setIsLoading false s)))).

(** The store handle and the user id that guard every write. *)
Definition storeReady (s : State) : bool := is_some (db s) && truthy_slot (userId s).

Definition fetchCall (payload : Payload) (s : State) : Call :=
  {| call_request := ReqFetch apiUrl payload; call_ui := s |}.

Definition addDocCall (h : Host) (s : State) (answer : json) (live : State) : Call :=
  {| call_request := ReqAddDoc (historyCollectionPath h s) (exchangeOf s answer);
     call_ui := live |}.

(** The answer drawn from a parsed body that is not [null]. *)
Definition answerOf (result : json) : json :=
  js_or (firstText (js_dot result "candidates")) (JStr noValidResponse).

(** The instants, in milliseconds as [toDate()] gives them, of the entries
    whose timestamp is resolved, in list order. *)
Definition resolvedTimestamps (l : list HistoryItem) : list Z :=
  flat_map (fun x => match timestamp x with Some t => [toDate t] | None => [] end) l.

(** [err.message] when the [try] block throws before an answer is drawn:
    a rejected [fetch], a status that is not a success, a body that does not
    parse, a body that is [null].  [None] when an answer is drawn. *)
Definition thrownBeforeAnswer (h : Host) (settled : Settled HttpResponse) : option string :=
  match settled with
  | Rejected message => Some message
  | Fulfilled apiResponse =>
      if negb (ok apiResponse) then Some (requestFailedPrefix ++ statusText apiResponse)%string
      else
        match json_body apiResponse with
        | Rejected message => Some message
        | Fulfilled JNull => Some (typeErrorMessage h)
        | Fulfilled _ => None
        end
  end.

(** The parsed body of a response from which an answer is drawn. *)
Definition parsedBody (settled : Settled HttpResponse) : json :=
  match settled with
  | Fulfilled apiResponse =>
      match json_body apiResponse with
      | Fulfilled result => result
      | Rejected _ => JNull
      end
  | Rejected _ => JNull
  end.

(** The ways a submission ends. *)
Definition endsFailed (s : State) (rm : Remote) (payload : Payload) (message : string) : Outcome :=
  {| ui := cleared (setError (apiErrorPrefix ++ message) (started s));
     remote := rm; calls := [fetchCall payload (started s)]; uncaught := None |}.

Definition endsShown (s : State) (rm : Remote) (payload : Payload) (answer : json) : Outcome :=
  {| ui := cleared (setResponse answer (started s));
     remote := rm; calls := [fetchCall payload (started s)]; uncaught := None |}.

Definition endsStored (h : Host) (s : State) (rm : Remote) (payload : Payload) (answer : json)
  : Outcome :=
  {| ui := cleared (setResponse answer (started s));
     remote := remote_addDoc (historyCollectionPath h s) (exchangeOf s answer) rm;
     calls := [ fetchCall payload (started s);
                addDocCall h s answer (setResponse answer (started s)) ];
     uncaught := None |}.

Definition endsUnstored (h : Host) (s : State) (rm : Remote) (payload : Payload) (answer : json)
           (message : string) : Outcome :=
  {| ui := cleared (setError (apiErrorPrefix ++ message) (setResponse answer (started s)));
     remote := rm;
     calls := [ fetchCall payload (started s);
                addDocCall h s answer (setResponse answer (started s)) ];
     uncaught := None |}.

(** ** Sample inputs *)

Definition sampleHost : Host :=
  {| appId := "default-app-id"; typeErrorMessage := "Cannot read properties of null" |}.

(** A body of the expected shape carrying [text]. *)
Definition answerBody (text : string) : json :=
  JObj [ ("candidates",
          JArr [ JObj [ ("content",
                         JObj [ ("parts", JArr [ JObj [ ("text", JStr text) ] ]) ]) ] ]) ].

(** Services whose gateway always settles to [reply], whose store accepts
    every write when [accepts] and rejects every write otherwise. *)
Definition sampleEnv (reply : Settled HttpResponse) (accepts : bool) : Env :=
  {| fetch := fun _ _ => reply;
     addDoc := fun _ _ => if accepts then Fulfilled "doc-1" else Rejected "unavailable";
     setDoc := fun _ _ => if accepts then Fulfilled tt else Rejected "unavailable" |}.

Definition okReply (body : json) : Settled HttpResponse :=
  Fulfilled {| ok := true; statusText := "OK"; json_body := Fulfilled body |}.

Definition failedReply : Settled HttpResponse :=
  Fulfilled {| ok := false; statusText := "Too Many Requests";
               json_body := Rejected "Unexpected end of JSON input" |}.

(** A signed-in session on [tab] with [text] typed, profile [category],
    the modal closed, nothing attached. *)
Definition session (tab text : string) (category : option string) : State :=
  {| db := Some FirestoreInstance; userId := Some "user-1"; activeTab := tab;
     prompt := text; imageFile := None; imageBase64 := None; response := JStr "";
     isLoading := false; history := []; error := ""; fileInputRef := None;
     studentMbti := category; showMbtiModal := false |}.

(** The same with no store handle and no user: Firebase was not configured. *)
Definition offlineSession (tab text : string) (category : option string) : State :=
  {| db := None; userId := None; activeTab := tab;
     prompt := text; imageFile := None; imageBase64 := None; response := JStr "";
     isLoading := false; history := []; error := ""; fileInputRef := None;
     studentMbti := category; showMbtiModal := false |}.

Definition samplePng : File := {| file_name := "page.png"; file_type := "image/png" |}.

(** [s] with [samplePng] picked and read, the file input mounted. *)
Definition withImage (s : State) : State :=
  {| db := db s; userId := userId s; activeTab := activeTab s; prompt := prompt s;
     imageFile := Some samplePng; imageBase64 := Some "iVBORw0KGgo=";
     response := response s; isLoading := isLoading s; history := history s;
     error := error s; fileInputRef := Some "C:\fakepath\page.png";
     studentMbti := studentMbti s; showMbtiModal := showMbtiModal s |}.

(** A stored exchange named [name] with the timestamp [stamp]. *)
Definition stampedDoc (name : string) (stamp : option Timestamp) : QueryDocumentSnapshot :=
  {| doc_id := name;
     doc_data := {| doc_type := "qa"; doc_prompt := name; doc_response := JStr "ok";
                    doc_mbti := None; doc_timestamp := stamp |} |}.

(** A stored exchange named [name] stamped at the millisecond [instant]. *)
Definition sampleDoc (name : string) (instant : option Z) : QueryDocumentSnapshot :=
  stampedDoc name (option_map fromMillis instant).

(** A snapshot out of order, one entry still waiting for its server time. *)
Definition sampleSnapshot : list QueryDocumentSnapshot :=
  [ sampleDoc "monday" (Some 1717372800000%Z);
    sampleDoc "pending" None;
    sampleDoc "tuesday" (Some 1717459200000%Z) ].

(** ** [handleImageChange] and the file reader *)

(** The text of [s] before its first comma, all of it when it has none. *)
Fixpoint beforeComma (s : string) : string :=
  match s with
  | EmptyString => EmptyString
  | String c rest => if Ascii.eqb c ","%char then EmptyString else String c (beforeComma rest)
  end.

(** The text of [s] after its first comma; [None] when it has none. *)
Fixpoint afterComma (s : string) : option string :=
  match s with
  | EmptyString => None
  | String c rest => if Ascii.eqb c ","%char then Some rest else afterComma rest
  end.

(** [s.split(',')[1]]: [None] is [undefined]. *)
Definition splitSecond (s : string) : option string :=
  match afterComma s with
  | Some rest => Some (beforeComma rest)
  | None => None
  end.

(** The change event of the file input, up to the start of the read:
    [files] is [e.target.files]. *)
Definition handleImageChange (files : list File) (s : State) : Proc :=
  match files with
  | file :: _ => setImageFile (Some file) ;; Done
  | [] => Done
  end.

(** [reader.onloadend]; [result] is [reader.result], [null] after a failed
    read, on which [split] is a [TypeError]. *)
Definition readerOnLoadEnd (h : Host) (result : option string) (s : State) : Proc :=
  match result with
  | Some url => setImageBase64 (splitSecond url) ;; Done
  | None => Uncaught (typeErrorMessage h)
  end.

(** ** The view *)

(** The [src] of the preview image: [Fulfilled None] when no preview is
    rendered, [Rejected] when rendering it throws on [imageFile.type]. *)
Definition previewSrc (h : Host) (s : State) : Settled (option string) :=
  if activeTab s =? "image" then
    match imageBase64 s with
    | Some base64 =>
        if truthy_str base64 then
          match imageFile s with
          | Some f => Fulfilled (Some ("data:" ++ file_type f ++ ";base64," ++ base64)%string)
          | None => Rejected (typeErrorMessage h)
          end
        else Fulfilled None
    | None => Fulfilled None
    end
  else Fulfilled None.

(** What React makes of a value placed as a child of an element: a string
    or a number is text (the empty string none), [true], [false] and [null]
    are nothing, an array is its items one after the other, and an object
    that is no element is refused with an exception. *)
Fixpoint childThrows (v : json) : bool :=
  match v with
  | JObj _ => true
  | JArr items => existsb childThrows items
  | _ => false
  end.

Fixpoint childText (v : json) : bool :=
  match v with
  | JStr text => truthy_str text
  | JNum _ => true
  | JArr items => existsb childText items
  | _ => false
  end.

(** The preview reads [imageFile.type] of no file. *)
Definition previewThrows (s : State) : bool :=
  (activeTab s =? "image") && truthy_slot (imageBase64 s) && negb (is_some (imageFile s)).

(** Rendering throws, which takes the whole component off the screen: in
    the preview, or in the answer block on [{response}]. *)
Definition renderThrows (s : State) : bool :=
  previewThrows s || (truthy (Some (response s)) && childThrows (response s)).

(** The four blocks of the response pane.  The spinner, the error and the
    idle hint are part of the view under their guard; the answer block puts
    an answer on the screen when its guard holds and [{response}] is a value
    React displays as text. *)
Definition showsSpinner (s : State) : bool := isLoading s.
Definition showsError (s : State) : bool := truthy_str (error s).
Definition showsResponse (s : State) : bool :=
  truthy (Some (response s)) && childText (response s) && negb (childThrows (response s)).
Definition showsIdleHint (s : State) : bool :=
  negb (isLoading s) && negb (truthy (Some (response s))) && negb (truthy_str (error s)).

(** [disabled={isLoading}] on the submit button. *)
Definition submitDisabled (s : State) : bool := isLoading s.

(** The line of a history entry that shows its prompt: [item.prompt || '...']. *)
Definition historyEntryTitle (item : HistoryItem) : string :=
  if truthy_str (item_prompt item) then item_prompt item else "이미지 질문".

(** The image slots agree: a payload is attached only along with its file. *)
Definition imageConsistent (s : State) : Prop :=
  truthy_slot (imageBase64 s) = true -> imageFile s <> None.

(** ** Start-up: configuration, sign-in and the profile *)

Inductive Auth : Type := AuthInstance.

(** The component state with the two slots of the start-up. *)
Record AppState : Type := {
  view : State;
  auth : option Auth;
  isAuthReady : bool
}.

Definition onView (f : State -> State) (a : AppState) : AppState :=
  {| view := f (view a); auth := auth a; isAuthReady := isAuthReady a |}.

Definition setAuth (v : option Auth) (a : AppState) : AppState :=
  {| view := view a; auth := v; isAuthReady := isAuthReady a |}.

Definition setIsAuthReady (v : bool) (a : AppState) : AppState :=
  {| view := view a; auth := auth a; isAuthReady := v |}.

Definition setDb (v : option Firestore) (s : State) : State :=
  {| db := v; userId := userId s; activeTab := activeTab s; prompt := prompt s;
     imageFile := imageFile s; imageBase64 := imageBase64 s;
     response := response s; isLoading := isLoading s; history := history s;
     error := error s; fileInputRef := fileInputRef s;
     studentMbti := studentMbti s; showMbtiModal := showMbtiModal s |}.

Definition setUserId (v : option string) (s : State) : State :=
  {| db := db s; userId := v; activeTab := activeTab s; prompt := prompt s;
     imageFile := imageFile s; imageBase64 := imageBase64 s;
     response := response s; isLoading := isLoading s; history := history s;
     error := error s; fileInputRef := fileInputRef s;
     studentMbti := studentMbti s; showMbtiModal := showMbtiModal s |}.

Definition initialAppState : AppState :=
  {| view := initialState; auth := None; isAuthReady := false |}.

(** What the module reads at load: whether [firebaseConfig.apiKey] is
    truthy, and [initialAuthToken]. *)
Record Deployment : Type := {
  host : Host;
  hasApiKey : bool;
  initialAuthToken : option string
}.

Definition configMissingMessage : string :=
  "Firebase 설정이 올바르지 않습니다. Netlify 환경 변수를 확인해주세요.".
Definition authFailedMessage : string := "인증에 실패했습니다. 페이지를 새로고침 해주세요.".
Definition initFailedMessage : string := "앱을 초기화하는 데 실패했습니다. 구성 정보를 확인해주세요.".

(** The body of the first effect up to the registration of the listener;
    [sdk] is [Rejected] when [initializeApp], [getAuth] or [getFirestore]
    throws.  The flag tells whether [onAuthStateChanged] was registered. *)
Definition initEffect (d : Deployment) (sdk : Settled unit) (a : AppState) : AppState * bool :=
  if negb (hasApiKey d) then (onView (setError configMissingMessage) a, false)
  else
    match sdk with
    | Fulfilled _ =>
        (onView (setDb (Some FirestoreInstance)) (setAuth (Some AuthInstance) a), true)
    | Rejected _ => (onView (setError initFailedMessage) a, false)
    end.

(** [userDocSnap.data()] of an existing profile document. *)
Record ProfileData : Type := { profile_mbti : option string }.

(** The listener of [onAuthStateChanged] as a tree of its awaited requests;
    [getDoc] settles to [None] for a document that does not exist. *)
Inductive AuthProc : Type :=
| AuthDone
| AuthUncaught (message : string)
| AuthUpdate (f : AppState -> AppState) (k : AuthProc)
| GetDoc (path : string) (k : Settled (option ProfileData) -> AuthProc)
| SignInWithCustomToken (token : string) (k : Settled unit -> AuthProc)
| SignInAnonymously (k : Settled unit -> AuthProc).

Inductive AuthRequest : Type :=
| ReqGetDoc (path : string)
| ReqSignInWithCustomToken (token : string)
| ReqSignInAnonymously.

Record AuthEnv : Type := {
  getDoc : string -> Settled (option ProfileData);
  signInWithCustomToken : string -> Settled unit;
  signInAnonymously : Settled unit
}.

Record AuthOutcome : Type := {
  app : AppState;
  auth_calls : list AuthRequest;
  auth_uncaught : option string
}.

Fixpoint runAuth (env : AuthEnv) (p : AuthProc) (a : AppState) (tr : list AuthRequest)
  : AuthOutcome :=
  match p with
  | AuthDone => {| app := a; auth_calls := tr; auth_uncaught := None |}
  | AuthUncaught message => {| app := a; auth_calls := tr; auth_uncaught := Some message |}
  | AuthUpdate f k => runAuth env k (f a) tr
  | GetDoc path k => runAuth env (k (getDoc env path)) a (tr ++ [ReqGetDoc path])
  | SignInWithCustomToken token k =>
      runAuth env (k (signInWithCustomToken env token)) a
              (tr ++ [ReqSignInWithCustomToken token])
  | SignInAnonymously k =>
      runAuth env (k (signInAnonymously env)) a (tr ++ [ReqSignInAnonymously])
  end.

(** [setIsAuthReady(true)], the last statement of the listener. *)
Definition authReady : AuthProc := AuthUpdate (setIsAuthReady true) AuthDone.

(** The listener; [user] is [Some uid] for a signed-in user. *)
Definition onAuthStateChangedCallback (d : Deployment) (user : option string) : AuthProc :=
  match user with
  | Some uid =>
      AuthUpdate (onView (setUserId (Some uid)))
        (GetDoc ("/artifacts/" ++ appId (host d) ++ "/users/" ++ uid)
           (fun settled =>
              match settled with
              | Rejected message => AuthUncaught message
              | Fulfilled userDocSnap =>
                  match userDocSnap with
                  | Some data =>
                      if truthy_slot (profile_mbti data)
                      then AuthUpdate (onView (setStudentMbti (profile_mbti data))) authReady
                      else AuthUpdate (onView (setShowMbtiModal true)) authReady
                  | None => AuthUpdate (onView (setShowMbtiModal true)) authReady
                  end
              end))
  | None =>
      let afterSignIn := fun settled : Settled unit =>
        match settled with
        | Fulfilled _ => authReady
        | Rejected _ => AuthUpdate (onView (setError authFailedMessage)) authReady
        end in
      match initialAuthToken d with
      | Some token =>
          if truthy_str token then SignInWithCustomToken token afterSignIn
          else SignInAnonymously afterSignIn
      | None => SignInAnonymously afterSignIn
      end
  end.

Definition authEvent (env : AuthEnv) (d : Deployment) (user : option string) (a : AppState)
  : AuthOutcome :=
  runAuth env (onAuthStateChangedCallback d user) a [].

(** The guard of the second effect, negated: the history subscription is
    set up. *)
Definition historySubscribed (a : AppState) : bool :=
  isAuthReady a && is_some (db (view a)) && truthy_slot (userId (view a)).

(** The profile document as the store holds it: the latest merged [mbti]. *)
Definition storedProfile (r : Remote) (path : string) : Settled (option ProfileData) :=
  match assoc path (merged r) with
  | Some category => Fulfilled (Some {| profile_mbti := Some category |})
  | None => Fulfilled None
  end.

(** Sign-in services over the store [r]. *)
Definition storeAuthEnv (r : Remote) : AuthEnv :=
  {| getDoc := storedProfile r;
     signInWithCustomToken := fun _ => Fulfilled tt;
     signInAnonymously := Fulfilled tt |}.

Definition sampleDeployment : Deployment :=
  {| host := sampleHost; hasApiKey := true; initialAuthToken := None |}.

(** Sign-in services whose profile read settles to [profile] and whose
    sign-in succeeds when [signsIn]. *)
Definition sampleAuthEnv (profile : Settled (option ProfileData)) (signsIn : bool) : AuthEnv :=
  {| getDoc := fun _ => profile;
     signInWithCustomToken := fun _ => if signsIn then Fulfilled tt else Rejected "network";
     signInAnonymously := if signsIn then Fulfilled tt else Rejected "network" |}.

(** The state once the first effect has run with a valid configuration. *)
Definition configuredAppState : AppState :=
  fst (initEffect sampleDeployment (Fulfilled tt) initialAppState).

(** * Properties *)

(** ** Running the blocks *)

Lemma run_finallyBlock (env : Env) (st : State) (rm : Remote) (tr : list Call) :
  run env finallyBlock st rm tr
  = {| ui := cleared st; remote := rm; calls := tr; uncaught := None |}.
Proof. reflexivity. Qed.

Lemma run_catchBlock (env : Env) (message : string) (st : State) (rm : Remote) (tr : list Call) :
  run env (catchBlock message) st rm tr
  = {| ui := cleared (setError (apiErrorPrefix ++ message) st);
       remote := rm; calls := tr; uncaught := None |}.
Proof. reflexivity. Qed.

(** The two local rejections. *)
Lemma getAiResponse_inputMissing (h : Host) (env : Env) (s : State) (rm : Remote) :
  inputMissing s = true ->
  invoke env (getAiResponse h) s rm
  = {| ui := setError emptyInputMessage s; remote := rm; calls := []; uncaught := None |}.
Proof.
  intros Hin. unfold invoke, getAiResponse. rewrite Hin. reflexivity.
Qed.

Lemma getAiResponse_mbtiMissing (h : Host) (env : Env) (s : State) (rm : Remote) :
  inputMissing s = false ->
  mbtiMissing s = true ->
  invoke env (getAiResponse h) s rm
  = {| ui := setShowMbtiModal true (setError mbtiNeededMessage s);
       remote := rm; calls := []; uncaught := None |}.
Proof.
  intros Hin Hmb. unfold invoke, getAiResponse. rewrite Hin, Hmb. reflexivity.
Qed.

(** A submission that passes both checks and builds its body issues the
    request, and continues with what the gateway settles to. *)
Lemma getAiResponse_fetches (h : Host) (env : Env) (s : State) (rm : Remote) (payload : Payload) :
  inputMissing s = false ->
  mbtiMissing s = false ->
  buildPayload s = Some payload ->
  invoke env (getAiResponse h) s rm
  = run env
      match fetch env apiUrl payload with
      | Rejected message => catchBlock message
      | Fulfilled apiResponse => afterFetch h s apiResponse
      end
      (started s) rm [fetchCall payload (started s)].
Proof.
  intros Hin Hmb Hpay. unfold invoke, getAiResponse. rewrite Hin, Hmb, Hpay. reflexivity.
Qed.

Lemma getAiResponse_typeError (h : Host) (env : Env) (s : State) (rm : Remote) :
  inputMissing s = false ->
  mbtiMissing s = false ->
  buildPayload s = None ->
  invoke env (getAiResponse h) s rm
  = {| ui := started s; remote := rm; calls := []; uncaught := Some (typeErrorMessage h) |}.
Proof.
  intros Hin Hmb Hpay. unfold invoke, getAiResponse. rewrite Hin, Hmb, Hpay. reflexivity.
Qed.

Lemma generatedText_not_null (h : Host) (result : json) :
  result <> JNull -> generatedText h result = Fulfilled (answerOf result).
Proof.
  intros Hnn. destruct result; try reflexivity. now elim Hnn.
Qed.

(** A response whose status is not a success goes to the [catch] block. *)
Lemma afterFetch_not_ok (h : Host) (env : Env) (s : State) (r : HttpResponse)
      (st : State) (rm : Remote) (tr : list Call) :
  ok r = false ->
  run env (afterFetch h s r) st rm tr
  = {| ui := cleared (setError (apiErrorPrefix ++ requestFailedPrefix ++ statusText r) st);
       remote := rm; calls := tr; uncaught := None |}.
Proof.
  intros Hok. unfold afterFetch. rewrite Hok. reflexivity.
Qed.

(** A success response with an answer, the store not ready: nothing is written. *)
Lemma afterFetch_answer_no_store (h : Host) (env : Env) (s : State) (r : HttpResponse)
      (result : json) (st : State) (rm : Remote) (tr : list Call) :
  ok r = true ->
  json_body r = Fulfilled result ->
  result <> JNull ->
  storeReady s = false ->
  run env (afterFetch h s r) st rm tr
  = {| ui := cleared (setResponse (answerOf result) st);
       remote := rm; calls := tr; uncaught := None |}.
Proof.
  intros Hok Hbody Hnn Hst. unfold afterFetch.
  rewrite Hok, Hbody, (generatedText_not_null h result Hnn). cbn [negb run].
  unfold storeReady in Hst. rewrite Hst. reflexivity.
Qed.

(** A success response with an answer, the store ready: one write is issued. *)
Lemma afterFetch_answer_store (h : Host) (env : Env) (s : State) (r : HttpResponse)
      (result : json) (st : State) (rm : Remote) (tr : list Call) :
  ok r = true ->
  json_body r = Fulfilled result ->
  result <> JNull ->
  storeReady s = true ->
  run env (afterFetch h s r) st rm tr
  = let answer := answerOf result in
    let live := setResponse answer st in
    match addDoc env (historyCollectionPath h s) (exchangeOf s answer) with
    | Fulfilled _ =>
        {| ui := cleared live;
           remote := remote_addDoc (historyCollectionPath h s) (exchangeOf s answer) rm;
           calls := tr ++ [addDocCall h s answer live]; uncaught := None |}
    | Rejected message =>
        {| ui := cleared (setError (apiErrorPrefix ++ message) live);
           remote := rm;
           calls := tr ++ [addDocCall h s answer live]; uncaught := None |}
    end.
Proof.
  intros Hok Hbody Hnn Hst. unfold afterFetch.
  rewrite Hok, Hbody, (generatedText_not_null h result Hnn). cbn [negb run].
  unfold storeReady in Hst. rewrite Hst. cbn [run].
  destruct (addDoc env _ _); reflexivity.
Qed.

(** Whatever the services answer, a write to the history collection is
    issued only by a submission whose request was answered with a success
    status and a parsed body other than [null], while the store is ready;
    it is then the second and last request, after the one to the gateway. *)
Lemma getAiResponse_addDoc_inv (h : Host) (env : Env) (s : State) (rm : Remote) (c : Call) :
  In c (calls (invoke env (getAiResponse h) s rm)) ->
  is_addDoc c = true ->
  exists payload apiResponse result,
    inputMissing s = false /\ mbtiMissing s = false
    /\ buildPayload s = Some payload
    /\ fetch env apiUrl payload = Fulfilled apiResponse
    /\ ok apiResponse = true
    /\ json_body apiResponse = Fulfilled result
    /\ result <> JNull
    /\ storeReady s = true
    /\ calls (invoke env (getAiResponse h) s rm)
       = [ fetchCall payload (started s);
           addDocCall h s (answerOf result) (setResponse (answerOf result) (started s)) ].
Proof.
  destruct (inputMissing s) eqn:Hin.
  { rewrite getAiResponse_inputMissing by assumption. intros []. }
  destruct (mbtiMissing s) eqn:Hmb.
  { rewrite getAiResponse_mbtiMissing by assumption. intros []. }
  destruct (buildPayload s) as [payload|] eqn:Hpay.
  2:{ rewrite getAiResponse_typeError by assumption. intros []. }
  rewrite (getAiResponse_fetches h env s rm payload) by assumption.
  destruct (fetch env apiUrl payload) as [r|message] eqn:Hfetch.
  2:{ rewrite run_catchBlock. cbn [calls].
      intros [<-|[]] Hadd; discriminate Hadd. }
  destruct (ok r) eqn:Hok.
  2:{ rewrite afterFetch_not_ok by assumption. cbn [calls].
      intros [<-|[]] Hadd; discriminate Hadd. }
  destruct (json_body r) as [result|message] eqn:Hbody.
  2:{ unfold afterFetch. rewrite Hok, Hbody. cbn [negb]. rewrite run_catchBlock. cbn [calls].
      intros [<-|[]] Hadd; discriminate Hadd. }
  assert (Hdec : result = JNull \/ result <> JNull)
    by (destruct result; (now left) || (right; discriminate)).
  destruct Hdec as [->|Hnn].
  { unfold afterFetch. rewrite Hok, Hbody. cbn [negb generatedText].
    rewrite run_catchBlock. cbn [calls].
    intros [<-|[]] Hadd; discriminate Hadd. }
  destruct (storeReady s) eqn:Hst.
  2:{ rewrite (afterFetch_answer_no_store h env s r result) by assumption. cbn [calls].
      intros [<-|[]] Hadd; discriminate Hadd. }
  rewrite (afterFetch_answer_store h env s r result) by assumption.
  intros _ _. exists payload, r, result.
  repeat (split; [assumption || reflexivity|]).
  cbv zeta. destruct (addDoc env _ _); reflexivity.
Qed.

(** The store changes only by that write, and only when it is accepted. *)
Lemma getAiResponse_remote_inv (h : Host) (env : Env) (s : State) (rm : Remote) :
  remote (invoke env (getAiResponse h) s rm) = rm
  \/ exists c docId path data,
       In c (calls (invoke env (getAiResponse h) s rm))
       /\ call_request c = ReqAddDoc path data
       /\ addDoc env path data = Fulfilled docId
       /\ remote (invoke env (getAiResponse h) s rm) = remote_addDoc path data rm.
Proof.
  destruct (inputMissing s) eqn:Hin.
  { rewrite getAiResponse_inputMissing by assumption. now left. }
  destruct (mbtiMissing s) eqn:Hmb.
  { rewrite getAiResponse_mbtiMissing by assumption. now left. }
  destruct (buildPayload s) as [payload|] eqn:Hpay.
  2:{ rewrite getAiResponse_typeError by assumption. now left. }
  rewrite (getAiResponse_fetches h env s rm payload) by assumption.
  destruct (fetch env apiUrl payload) as [r|message] eqn:Hfetch.
  2:{ rewrite run_catchBlock. now left. }
  destruct (ok r) eqn:Hok.
  2:{ rewrite afterFetch_not_ok by assumption. now left. }
  destruct (json_body r) as [result|message] eqn:Hbody.
  2:{ unfold afterFetch. rewrite Hok, Hbody. cbn [negb]. rewrite run_catchBlock. now left. }
  assert (Hdec : result = JNull \/ result <> JNull)
    by (destruct result; (now left) || (right; discriminate)).
  destruct Hdec as [->|Hnn].
  { unfold afterFetch. rewrite Hok, Hbody. cbn [negb generatedText].
    rewrite run_catchBlock. now left. }
  destruct (storeReady s) eqn:Hst.
  2:{ rewrite (afterFetch_answer_no_store h env s r result) by assumption. now left. }
  rewrite (afterFetch_answer_store h env s r result) by assumption. cbv zeta.
  destruct (addDoc env _ _) as [docId|message] eqn:Hadd; [right|now left].
  eexists _, docId, _, _. cbn [calls remote].
  split; [right; left; reflexivity|]. cbn [addDocCall call_request].
  repeat split. exact Hadd.
Qed.

Lemma inputMissing_false_iff (s : State) :
  inputMissing s = false <-> prompt s <> "" \/ truthy_slot (imageBase64 s) = true.
Proof.
  unfold inputMissing, truthy_str.
  destruct (String.eqb_spec (prompt s) "") as [He|Hne];
    destruct (truthy_slot (imageBase64 s)); cbn; split; intros H;
    try reflexivity; try discriminate; auto.
  destruct H as [H|H]; [now elim H | discriminate].
Qed.

(** Once the request has left, every path ends in the [finally] block. *)
Lemma getAiResponse_settles (h : Host) (env : Env) (s : State) (rm : Remote) (payload : Payload) :
  inputMissing s = false ->
  mbtiMissing s = false ->
  buildPayload s = Some payload ->
  exists st,
    ui (invoke env (getAiResponse h) s rm) = cleared st
    /\ fileInputRef st = fileInputRef s
    /\ uncaught (invoke env (getAiResponse h) s rm) = None.
Proof.
  intros Hin Hmb Hpay.
  rewrite (getAiResponse_fetches h env s rm payload) by assumption.
  destruct (fetch env apiUrl payload) as [r|message] eqn:Hfetch.
  2:{ rewrite run_catchBlock. eexists. repeat split. }
  destruct (ok r) eqn:Hok.
  2:{ rewrite afterFetch_not_ok by assumption. eexists. repeat split. }
  destruct (json_body r) as [result|message] eqn:Hbody.
  2:{ unfold afterFetch. rewrite Hok, Hbody. cbn [negb]. rewrite run_catchBlock.
      eexists. repeat split. }
  assert (Hdec : result = JNull \/ result <> JNull)
    by (destruct result; (now left) || (right; discriminate)).
  destruct Hdec as [->|Hnn].
  { unfold afterFetch. rewrite Hok, Hbody. cbn [negb generatedText].
    rewrite run_catchBlock. eexists. repeat split. }
  destruct (storeReady s) eqn:Hst.
  2:{ rewrite (afterFetch_answer_no_store h env s r result) by assumption.
      eexists. repeat split. }
  rewrite (afterFetch_answer_store h env s r result) by assumption. cbv zeta.
  destruct (addDoc env _ _); eexists; repeat split.
Qed.

(** ** The claims *)

(** C1. On every tab, a submission with an empty prompt and no image (no
    base64 payload, or an empty one) is rejected on the spot: no request
    leaves the component and the store is untouched, the error slot takes
    the validation message, and nothing else changes; in particular the
    prompt and the image slots keep their values. *)
Theorem C1_empty_submission_rejected (h : Host) (env : Env) (s : State) (rm : Remote) :
  prompt s = "" ->
  truthy_slot (imageBase64 s) = false ->
  let o := invoke env (getAiResponse h) s rm in
  calls o = [] /\ remote o = rm /\ uncaught o = None
  /\ error (ui o) = emptyInputMessage /\ emptyInputMessage <> ""
  /\ ui o = setError emptyInputMessage s
  /\ prompt (ui o) = prompt s
  /\ imageFile (ui o) = imageFile s
  /\ imageBase64 (ui o) = imageBase64 s.
Proof.
  intros Hp Himg o.
  assert (Hin : inputMissing s = true).
  { unfold inputMissing, truthy_str. rewrite Hp, Himg. reflexivity. }
  subst o. rewrite getAiResponse_inputMissing by assumption.
  cbn [calls remote uncaught ui].
  repeat split. unfold emptyInputMessage. discriminate.
Qed.

Lemma C1_witness :
  let s := session "summary" "" None in
  let o := invoke (sampleEnv (okReply (answerBody "ok")) true) (getAiResponse sampleHost)
                  s emptyRemote in
  prompt s = "" /\ truthy_slot (imageBase64 s) = false
  /\ calls o = [] /\ error (ui o) = emptyInputMessage /\ prompt (ui o) = prompt s.
Proof.
  intros s o.
  pose proof (C1_empty_submission_rejected sampleHost
                (sampleEnv (okReply (answerBody "ok")) true) s emptyRemote
                eq_refl eq_refl) as H.
  cbv zeta in H. fold o in H.
  destruct H as (Hcalls & _ & _ & Herr & _ & _ & Hprompt & _).
  split; [reflexivity|]. split; [reflexivity|].
  split; [exact Hcalls|]. split; [exact Herr|exact Hprompt].
Defined.

(** C2 as stated fails on the freshly mounted component: the mentor tab
    is active, no profile is set, the prompt is empty and no image is
    attached; the first check rejects the submission and the modal stays
    closed. *)
Lemma C2_counterexample :
  let s := initialState in
  let o := invoke (sampleEnv (okReply (answerBody "ok")) true) (getAiResponse sampleHost)
                  s emptyRemote in
  activeTab s = "mentor" /\ studentMbti s = None /\ showMbtiModal s = false
  /\ calls o = []
  /\ error (ui o) = emptyInputMessage
  /\ showMbtiModal (ui o) = false.
Proof. repeat split. Qed.

(** C2, amended.  On the mentor tab with no profile category, whatever the
    prompt, no request leaves the component, the store is untouched, a
    validation message is set and the prompt is kept; when the prompt is not
    empty or an image is attached, the message is the one asking for the
    category and the first-run modal is opened. *)
Theorem C2_mentor_without_profile_blocked (h : Host) (env : Env) (s : State) (rm : Remote) :
  activeTab s = "mentor" ->
  truthy_slot (studentMbti s) = false ->
  let o := invoke env (getAiResponse h) s rm in
  calls o = [] /\ remote o = rm /\ uncaught o = None
  /\ error (ui o) <> ""
  /\ prompt (ui o) = prompt s
  /\ (prompt s <> "" \/ truthy_slot (imageBase64 s) = true ->
      error (ui o) = mbtiNeededMessage /\ showMbtiModal (ui o) = true).
Proof.
  intros Htab Hmbti o.
  assert (Hmb : mbtiMissing s = true).
  { unfold mbtiMissing. rewrite Htab, Hmbti. reflexivity. }
  subst o. destruct (inputMissing s) eqn:Hin.
  - rewrite getAiResponse_inputMissing by assumption. cbn [calls remote uncaught ui].
    repeat split.
    + unfold emptyInputMessage. discriminate.
    + apply inputMissing_false_iff in H. congruence.
    + apply inputMissing_false_iff in H. congruence.
  - rewrite getAiResponse_mbtiMissing by assumption. cbn [calls remote uncaught ui].
    repeat split. unfold mbtiNeededMessage. discriminate.
Qed.

Lemma C2_witness :
  let s := session "mentor" "Why do we need fractions?" None in
  let o := invoke (sampleEnv (okReply (answerBody "ok")) true) (getAiResponse sampleHost)
                  s emptyRemote in
  activeTab s = "mentor" /\ truthy_slot (studentMbti s) = false
  /\ calls o = [] /\ error (ui o) = mbtiNeededMessage /\ showMbtiModal (ui o) = true.
Proof.
  intros s o.
  pose proof (C2_mentor_without_profile_blocked sampleHost
                (sampleEnv (okReply (answerBody "ok")) true) s emptyRemote
                eq_refl eq_refl) as H.
  cbv zeta in H. fold o in H.
  destruct H as (Hcalls & _ & _ & _ & _ & Hopen).
  destruct Hopen as [Herr Hmodal]; [left; discriminate|].
  split; [reflexivity|]. split; [reflexivity|].
  split; [exact Hcalls|]. split; [exact Herr|exact Hmodal].
Defined.

(** C3 as stated fails: with no store handle and no user id (Firebase not
    configured) the gateway answers, the answer is shown with no error, and
    no record is written. *)
Lemma C3_counterexample :
  let s := offlineSession "qa" "What is a fraction?" None in
  let env := sampleEnv (okReply (answerBody "A part of a whole.")) true in
  let o := invoke env (getAiResponse sampleHost) s emptyRemote in
  (exists payload, calls o = [fetchCall payload (started s)])
  /\ response (ui o) = JStr "A part of a whole."
  /\ error (ui o) = ""
  /\ added (remote o) = [].
Proof.
  cbv zeta. split; [eexists; reflexivity|]. repeat split.
Qed.

(** C3, amended.  A record is written only by a submission whose request
    to the gateway was answered with a success status and a parsed body,
    after that request, and the store changes in no other way.  After such
    an answer (the body not [null]) the answer is shown; with the store
    handle and the user id present exactly one write follows, of a document
    whose type, prompt and response are those of the submission, whose
    category is the selected one when one is selected, and whose timestamp
    is the server's placeholder, never a client time; when the store accepts
    the write, that document is the one record appended.  Without the handle
    or the user id nothing is written. *)
Theorem C3_exchange_written_after_success (h : Host) (env : Env) (s : State) (rm : Remote) :
  let o := invoke env (getAiResponse h) s rm in
  (forall c, In c (calls o) -> is_addDoc c = true ->
     exists payload apiResponse result,
       fetch env apiUrl payload = Fulfilled apiResponse
       /\ ok apiResponse = true
       /\ json_body apiResponse = Fulfilled result
       /\ calls o = [fetchCall payload (started s); c])
  /\ (remote o <> rm -> exists c, In c (calls o) /\ is_addDoc c = true)
  /\ (forall payload apiResponse result,
        inputMissing s = false ->
        mbtiMissing s = false ->
        buildPayload s = Some payload ->
        fetch env apiUrl payload = Fulfilled apiResponse ->
        ok apiResponse = true ->
        json_body apiResponse = Fulfilled result ->
        result <> JNull ->
        response (ui o) = answerOf result
        /\ (storeReady s = false -> remote o = rm /\ calls o = [fetchCall payload (started s)])
        /\ (storeReady s = true ->
            exists d live,
              calls o = [ fetchCall payload (started s);
                          {| call_request := ReqAddDoc (historyCollectionPath h s) d;
                             call_ui := live |} ]
              /\ data_type d = activeTab s
              /\ data_prompt d = prompt s
              /\ data_response d = answerOf result
              /\ (forall category, studentMbti s = Some category -> category <> "" ->
                                   data_mbti d = Some category)
              /\ data_timestamp d = serverTimestamp
              /\ (forall docId,
                    addDoc env (historyCollectionPath h s) d = Fulfilled docId ->
                    added (remote o) = added rm ++ [(historyCollectionPath h s, d)]
                    /\ merged (remote o) = merged rm))).
Proof.
  intros o. subst o. split; [|split].
  - intros c Hc Hadd.
    destruct (getAiResponse_addDoc_inv h env s rm c Hc Hadd)
      as (payload & r & result & _ & _ & _ & Hfetch & Hok & Hbody & _ & _ & Hcalls).
    exists payload, r, result. repeat (split; [assumption|]).
    rewrite Hcalls in Hc |- *.
    destruct Hc as [<-|[<-|[]]]; [discriminate Hadd|reflexivity].
  - intros Hchg.
    destruct (getAiResponse_remote_inv h env s rm)
      as [Hsame|(c & docId & path & data & Hc & Hreq & _ & _)]; [now elim Hchg|].
    exists c. split; [assumption|]. unfold is_addDoc. now rewrite Hreq.
  - intros payload r result Hin Hmb Hpay Hfetch Hok Hbody Hnn.
    rewrite (getAiResponse_fetches h env s rm payload) by assumption.
    rewrite Hfetch.
    destruct (storeReady s) eqn:Hst.
    + rewrite (afterFetch_answer_store h env s r result) by assumption. cbv zeta.
      split; [destruct (addDoc env _ _); reflexivity|].
      split; [discriminate|]. intros _.
      exists (exchangeOf s (answerOf result)), (setResponse (answerOf result) (started s)).
      split; [destruct (addDoc env _ _); reflexivity|].
      repeat (split; [reflexivity|]).
      split.
      { intros category Hcat Hne. cbn [exchangeOf data_mbti]. rewrite Hcat.
        cbn [truthy_slot]. unfold truthy_str.
        destruct (String.eqb_spec category ""); [now elim Hne|reflexivity]. }
      split; [reflexivity|].
      intros docId Hacc. rewrite Hacc. split; reflexivity.
    + rewrite (afterFetch_answer_no_store h env s r result) by assumption.
      split; [reflexivity|]. split; [intros _; split; reflexivity|discriminate].
Qed.

Lemma C3_witness :
  let s := session "qa" "What is a fraction?" (Some "INTJ") in
  let env := sampleEnv (okReply (answerBody "A part of a whole.")) true in
  let o := invoke env (getAiResponse sampleHost) s emptyRemote in
  storeReady s = true
  /\ added (remote o)
     = [ ("/artifacts/default-app-id/users/user-1/studyHistory",
          {| data_type := "qa"; data_prompt := "What is a fraction?";
             data_response := JStr "A part of a whole."; data_mbti := Some "INTJ";
             data_timestamp := serverTimestamp |}) ].
Proof.
  intros s env o. split; [reflexivity|].
  pose proof (C3_exchange_written_after_success sampleHost env s emptyRemote) as H.
  cbv zeta in H. destruct H as (_ & _ & H).
  destruct (H {| contents := [ {| role := "user"; parts := [ TextPart (fullPrompt s) ] |} ] |}
              {| ok := true; statusText := "OK";
                 json_body := Fulfilled (answerBody "A part of a whole.") |}
              (answerBody "A part of a whole.")
              eq_refl eq_refl eq_refl eq_refl eq_refl eq_refl ltac:(discriminate))
    as (_ & _ & Hstore).
  destruct (Hstore eq_refl)
    as (d & live & Hcalls & Htype & Hprompt & Hresp & Hmbti & Hts & Hadded).
  injection Hcalls as Hd _. subst d.
  destruct (Hadded "doc-1" eq_refl) as [Hrec _].
  exact Hrec.
Defined.

(** C4.  Once a submission has issued its request, whatever the gateway
    and the store answer, the handler ends with the loading flag off, the
    prompt empty, the image slots empty and the mounted file input, if any,
    reset.  When the gateway answers with a status that is not a success, no
    write is issued, the store is unchanged and the error slot holds the
    failure message with the status text. *)
Theorem C4_failed_call_writes_nothing_and_input_is_cleared
        (h : Host) (env : Env) (s : State) (rm : Remote) (payload : Payload) :
  inputMissing s = false ->
  mbtiMissing s = false ->
  buildPayload s = Some payload ->
  let o := invoke env (getAiResponse h) s rm in
  (uncaught o = None
   /\ isLoading (ui o) = false
   /\ prompt (ui o) = ""
   /\ imageFile (ui o) = None
   /\ imageBase64 (ui o) = None
   /\ fileInputRef (ui o) = match fileInputRef s with Some _ => Some "" | None => None end)
  /\ (forall apiResponse,
        fetch env apiUrl payload = Fulfilled apiResponse ->
        ok apiResponse = false ->
        calls o = [fetchCall payload (started s)]
        /\ remote o = rm
        /\ error (ui o) = (apiErrorPrefix ++ requestFailedPrefix ++ statusText apiResponse)%string
        /\ error (ui o) <> "").
Proof.
  intros Hin Hmb Hpay o. subst o. split.
  - destruct (getAiResponse_settles h env s rm payload Hin Hmb Hpay) as (st & Hui & Href & Hun).
    rewrite Hui, Hun. cbn. rewrite Href. repeat split.
  - intros r Hfetch Hok.
    rewrite (getAiResponse_fetches h env s rm payload) by assumption.
    rewrite Hfetch, afterFetch_not_ok by assumption.
    cbn [calls remote ui cleared resetFileInput setImageBase64 setImageFile setPrompt
         setIsLoading setError error].
    repeat split. unfold apiErrorPrefix. discriminate.
Qed.

Lemma C4_witness :
  let s := withImage (session "image" "What does this page say?" None) in
  let env := sampleEnv failedReply true in
  let o := invoke env (getAiResponse sampleHost) s emptyRemote in
  inputMissing s = false /\ mbtiMissing s = false
  /\ added (remote o) = []
  /\ error (ui o) = (apiErrorPrefix ++ requestFailedPrefix ++ "Too Many Requests")%string
  /\ isLoading (ui o) = false /\ prompt (ui o) = "" /\ imageFile (ui o) = None
  /\ imageBase64 (ui o) = None /\ fileInputRef (ui o) = Some "".
Proof.
  intros s env o.
  pose proof (C4_failed_call_writes_nothing_and_input_is_cleared sampleHost env s emptyRemote
                {| contents :=
                     [ {| role := "user";
                          parts := [ TextPart (fullPrompt s);
                                     InlineDataPart "image/png" "iVBORw0KGgo=" ] |} ] |}
                eq_refl eq_refl eq_refl) as H.
  cbv zeta in H. fold o in H.
  destruct H as ((_ & Hload & Hprompt & Hfile & Hb64 & Href) & Hfail).
  destruct (Hfail {| ok := false; statusText := "Too Many Requests";
                     json_body := Rejected "Unexpected end of JSON input" |}
                  eq_refl eq_refl) as (_ & Hrm & Herr & _).
  split; [reflexivity|]. split; [reflexivity|].
  split; [rewrite Hrm; reflexivity|].
  split; [exact Herr|].
  split; [exact Hload|]. split; [exact Hprompt|]. split; [exact Hfile|].
  split; [exact Hb64|exact Href].
Defined.

(** *** Strings *)

Lemma length_append (a b : string) :
  String.length (a ++ b) = String.length a + String.length b.
Proof.
  induction a as [|c a IH]; cbn [append String.length]; [reflexivity|].
  now rewrite IH.
Qed.

Lemma substring_whole (b : string) : substring 0 (String.length b) b = b.
Proof.
  induction b as [|c b IH]; cbn [substring String.length]; [reflexivity|].
  now rewrite IH.
Qed.

Lemma substring_after_prefix (a b : string) :
  substring (String.length a) (String.length b) (a ++ b) = b.
Proof.
  induction a as [|c a IH]; cbn [append String.length substring].
  - apply substring_whole.
  - exact IH.
Qed.

(** *** Requests of a run *)

(** Running a handler only ever extends the record of requests. *)
Lemma run_calls_extend (env : Env) (p : Proc) :
  forall st rm tr, exists rest, calls (run env p st rm tr) = tr ++ rest.
Proof.
  induction p as [|message|f k IH|url body k IH|path data k IH|path field k IH];
    intros st rm tr; cbn [run].
  - exists []. cbn [calls]. now rewrite app_nil_r.
  - exists []. cbn [calls]. now rewrite app_nil_r.
  - apply IH.
  - destruct (IH (fetch env url body) st rm
                 (tr ++ [{| call_request := ReqFetch url body; call_ui := st |}]))
      as [rest Hrest].
    eexists. rewrite Hrest, <- app_assoc. reflexivity.
  - destruct (IH (addDoc env path data) st
                 (match addDoc env path data with
                  | Fulfilled _ => remote_addDoc path data rm
                  | Rejected _ => rm
                  end)
                 (tr ++ [{| call_request := ReqAddDoc path data; call_ui := st |}]))
      as [rest Hrest].
    eexists. rewrite Hrest, <- app_assoc. reflexivity.
  - destruct (IH (setDoc env path field) st
                 (match setDoc env path field with
                  | Fulfilled _ => remote_setDoc path field rm
                  | Rejected _ => rm
                  end)
                 (tr ++ [{| call_request := ReqSetDoc path field; call_ui := st |}]))
      as [rest Hrest].
    eexists. rewrite Hrest, <- app_assoc. reflexivity.
Qed.

(** A submission that passes the checks sends its body first. *)
Lemma getAiResponse_first_call (h : Host) (env : Env) (s : State) (rm : Remote) (payload : Payload) :
  inputMissing s = false ->
  mbtiMissing s = false ->
  buildPayload s = Some payload ->
  exists rest, calls (invoke env (getAiResponse h) s rm) = fetchCall payload (started s) :: rest.
Proof.
  intros Hin Hmb Hpay.
  rewrite (getAiResponse_fetches h env s rm payload) by assumption.
  apply (run_calls_extend env _ (started s) rm [fetchCall payload (started s)]).
Qed.

(** C5.  On the tab [qa] the assembled text is the fixed wrapper followed
    by the prompt as typed: the prompt is its tail, whole and in place, and
    a submission with a prompt sends exactly that text as the one part of
    its request. *)
Theorem C5_qa_template_wraps_prompt_verbatim (h : Host) (env : Env) (s : State) (rm : Remote) :
  activeTab s = "qa" ->
  fullPrompt s = ("다음 질문에 대해 자세히 답변해줘: " ++ prompt s)%string
  /\ String.length (fullPrompt s) = String.length qaPrefix + String.length (prompt s)
  /\ substring (String.length qaPrefix) (String.length (prompt s)) (fullPrompt s) = prompt s
  /\ (prompt s <> "" ->
      exists rest,
        calls (invoke env (getAiResponse h) s rm)
        = fetchCall
            {| contents :=
                 [ {| role := "user";
                      parts := [ TextPart ("다음 질문에 대해 자세히 답변해줘: " ++ prompt s) ] |} ] |}
            (started s) :: rest).
Proof.
  intros Htab.
  assert (Hfull : fullPrompt s = (qaPrefix ++ prompt s)%string).
  { unfold fullPrompt. rewrite Htab. reflexivity. }
  split; [exact Hfull|].
  split; [rewrite Hfull; apply length_append|].
  split; [rewrite Hfull; apply substring_after_prefix|].
  intros Hne.
  apply getAiResponse_first_call.
  - apply inputMissing_false_iff. now left.
  - unfold mbtiMissing. rewrite Htab. reflexivity.
  - unfold buildPayload. rewrite Htab, Hfull. cbn [String.eqb Ascii.eqb Bool.eqb andb].
    destruct (imageBase64 s); reflexivity.
Qed.

Lemma C5_witness :
  let s := session "qa" "What did King Sejong achieve?" None in
  activeTab s = "qa"
  /\ fullPrompt s = "다음 질문에 대해 자세히 답변해줘: What did King Sejong achieve?".
Proof.
  intros s. split; [reflexivity|].
  exact (proj1 (C5_qa_template_wraps_prompt_verbatim sampleHost
                  (sampleEnv failedReply true) s emptyRemote eq_refl)).
Defined.

(** *** The answer of the gateway *)

Lemma js_or_falsy (v : jsval) (d : json) : truthy v = false -> js_or v d = d.
Proof.
  intros Hf. unfold js_or. destruct v as [x|]; [|reflexivity]. now rewrite Hf.
Qed.

(** A body of the expected shape yields its text. *)
Lemma answerOf_answerBody (text : string) :
  text <> "" -> answerOf (answerBody text) = JStr text.
Proof.
  intros Hne. unfold answerOf, answerBody, firstText. cbn.
  destruct (String.eqb_spec text ""); [now elim Hne|reflexivity].
Qed.

(** C7 as stated fails twice.  A success response whose body is [{}],
    received with no store handle: the placeholder is shown and no record is
    written.  A success response whose body is [null]: the first property
    read throws, the error slot is set, no placeholder is shown and no
    record is written. *)
Lemma C7_counterexample :
  (let s := offlineSession "qa" "What is a fraction?" None in
   let o := invoke (sampleEnv (okReply (JObj [])) true) (getAiResponse sampleHost)
                   s emptyRemote in
   response (ui o) = JStr noValidResponse /\ error (ui o) = "" /\ added (remote o) = [])
  /\
  (let s := session "qa" "What is a fraction?" None in
   let o := invoke (sampleEnv (okReply JNull) true) (getAiResponse sampleHost)
                   s emptyRemote in
   response (ui o) = JStr ""
   /\ error (ui o) = (apiErrorPrefix ++ "Cannot read properties of null")%string
   /\ added (remote o) = []).
Proof. cbv zeta. repeat split. Qed.

(** C7, amended.  For a success response whose body parses to a value
    other than [null] and whose first candidate's first text part is absent
    (or falsy), the handler does not fail: the fixed placeholder is shown as
    the answer.  With the store handle and the user id present, the one
    write that follows carries the placeholder as its response, in the very
    document a real answer would be written in, and when the store accepts
    it that document is appended and no error is set.  Without them nothing
    is written. *)
Theorem C7_placeholder_when_text_is_absent
        (h : Host) (env : Env) (s : State) (rm : Remote)
        (payload : Payload) (apiResponse : HttpResponse) (result : json) :
  inputMissing s = false ->
  mbtiMissing s = false ->
  buildPayload s = Some payload ->
  fetch env apiUrl payload = Fulfilled apiResponse ->
  ok apiResponse = true ->
  json_body apiResponse = Fulfilled result ->
  result <> JNull ->
  truthy (firstText (js_dot result "candidates")) = false ->
  let o := invoke env (getAiResponse h) s rm in
  let placeholder := JStr "유효한 응답을 받지 못했습니다." in
  uncaught o = None
  /\ response (ui o) = placeholder
  /\ (storeReady s = true ->
      calls o = [ fetchCall payload (started s);
                  addDocCall h s placeholder (setResponse placeholder (started s)) ]
      /\ data_response (exchangeOf s placeholder) = placeholder
      /\ (forall real,
            data_type (exchangeOf s placeholder) = data_type (exchangeOf s real)
            /\ data_prompt (exchangeOf s placeholder) = data_prompt (exchangeOf s real)
            /\ data_mbti (exchangeOf s placeholder) = data_mbti (exchangeOf s real)
            /\ data_timestamp (exchangeOf s placeholder) = data_timestamp (exchangeOf s real))
      /\ (forall docId,
            addDoc env (historyCollectionPath h s) (exchangeOf s placeholder) = Fulfilled docId ->
            added (remote o)
            = added rm ++ [(historyCollectionPath h s, exchangeOf s placeholder)]
            /\ error (ui o) = ""))
  /\ (storeReady s = false ->
      calls o = [fetchCall payload (started s)] /\ remote o = rm /\ error (ui o) = "").
Proof.
  intros Hin Hmb Hpay Hfetch Hok Hbody Hnn Hfalsy o placeholder. subst o.
  assert (Hans : answerOf result = placeholder)
    by (unfold answerOf; now rewrite js_or_falsy).
  rewrite (getAiResponse_fetches h env s rm payload) by assumption.
  rewrite Hfetch.
  destruct (storeReady s) eqn:Hst.
  - rewrite (afterFetch_answer_store h env s apiResponse result) by assumption.
    cbv zeta. rewrite Hans.
    split; [destruct (addDoc env _ _); reflexivity|].
    split; [destruct (addDoc env _ _); reflexivity|].
    split; [|discriminate]. intros _.
    split; [destruct (addDoc env _ _); reflexivity|].
    split; [reflexivity|].
    split; [intros real; repeat split|].
    intros docId Hacc. rewrite Hacc. split; reflexivity.
  - rewrite (afterFetch_answer_no_store h env s apiResponse result) by assumption.
    rewrite Hans.
    split; [reflexivity|]. split; [reflexivity|].
    split; [discriminate|]. intros _. repeat split.
Qed.

Lemma C7_witness :
  let s := session "summary" "Photosynthesis turns light into sugar." (Some "ENFP") in
  let env := sampleEnv (okReply (JObj [ ("candidates", JArr []) ])) true in
  let o := invoke env (getAiResponse sampleHost) s emptyRemote in
  storeReady s = true
  /\ response (ui o) = JStr noValidResponse
  /\ added (remote o)
     = [ ("/artifacts/default-app-id/users/user-1/studyHistory",
          {| data_type := "summary";
             data_prompt := "Photosynthesis turns light into sugar.";
             data_response := JStr noValidResponse; data_mbti := Some "ENFP";
             data_timestamp := serverTimestamp |}) ].
Proof.
  intros s env o. split; [reflexivity|].
  pose proof (C7_placeholder_when_text_is_absent sampleHost env s emptyRemote
                {| contents := [ {| role := "user"; parts := [ TextPart (fullPrompt s) ] |} ] |}
                {| ok := true; statusText := "OK";
                   json_body := Fulfilled (JObj [ ("candidates", JArr []) ]) |}
                (JObj [ ("candidates", JArr []) ])
                eq_refl eq_refl eq_refl eq_refl eq_refl eq_refl
                ltac:(discriminate) eq_refl) as H.
  cbv zeta in H. fold o in H.
  destruct H as (_ & Hresp & Hstore & _).
  split; [exact Hresp|].
  destruct (Hstore eq_refl) as (_ & _ & _ & Hacc).
  exact (proj1 (Hacc "doc-1" eq_refl)).
Defined.

(** C8 as stated fails: an image picked on the image tab stays attached
    when the tab changes, and a submission from the tab [qa] sends the text
    part alone. *)
Lemma C8_counterexample :
  let env := sampleEnv (okReply (answerBody "ok")) true in
  let picked := withImage (session "image" "What is this?" None) in
  let s := ui (invoke env (tabButtonClick "qa") picked emptyRemote) in
  let o := invoke env (getAiResponse sampleHost) s emptyRemote in
  imageFile s = Some samplePng
  /\ imageBase64 s = Some "iVBORw0KGgo="
  /\ exists rest,
       calls o
       = fetchCall
           {| contents :=
                [ {| role := "user";
                     parts := [ TextPart (qaPrefix ++ "What is this?") ] |} ] |}
           (started s) :: rest.
Proof. cbv zeta. split; [reflexivity|]. split; [reflexivity|]. eexists. reflexivity. Qed.

(** C8, amended.  Of a submission that passes the checks: on the image
    tab, with a file picked and a base64 payload that is not empty, the
    request carries the text part followed by an inline-data part with the
    file's MIME type and that payload; on any other tab, or with no payload,
    the request carries the text part alone, whatever is attached. *)
Theorem C8_inline_data_part_on_image_tab (h : Host) (env : Env) (s : State) (rm : Remote) :
  inputMissing s = false ->
  mbtiMissing s = false ->
  let o := invoke env (getAiResponse h) s rm in
  (forall f base64,
      activeTab s = "image" ->
      imageFile s = Some f ->
      imageBase64 s = Some base64 ->
      base64 <> "" ->
      exists rest,
        calls o
        = fetchCall
            {| contents :=
                 [ {| role := "user";
                      parts := [ TextPart (fullPrompt s);
                                 InlineDataPart (file_type f) base64 ] |} ] |}
            (started s) :: rest)
  /\ (activeTab s <> "image" \/ truthy_slot (imageBase64 s) = false ->
      exists rest,
        calls o
        = fetchCall
            {| contents := [ {| role := "user"; parts := [ TextPart (fullPrompt s) ] |} ] |}
            (started s) :: rest).
Proof.
  intros Hin Hmb o. subst o. split.
  - intros f base64 Htab Hfile Hb64 Hne.
    apply getAiResponse_first_call; try assumption.
    unfold buildPayload. rewrite Hb64, Htab, Hfile. unfold truthy_str.
    destruct (String.eqb_spec base64 ""); [now elim Hne|reflexivity].
  - intros Hother.
    apply getAiResponse_first_call; try assumption.
    unfold buildPayload.
    destruct (imageBase64 s) as [base64|] eqn:Hb64; [|reflexivity].
    destruct Hother as [Htab|Hfalsy].
    + apply String.eqb_neq in Htab. rewrite Htab. reflexivity.
    + cbn [truthy_slot] in Hfalsy. rewrite Hfalsy, andb_false_r. reflexivity.
Qed.

Lemma C8_witness :
  let s := withImage (session "image" "What is this?" None) in
  let o := invoke (sampleEnv (okReply (answerBody "ok")) true) (getAiResponse sampleHost)
                  s emptyRemote in
  inputMissing s = false /\ mbtiMissing s = false
  /\ exists rest,
       calls o
       = fetchCall
           {| contents :=
                [ {| role := "user";
                     parts := [ TextPart (imagePrefix ++ "What is this?");
                                InlineDataPart "image/png" "iVBORw0KGgo=" ] |} ] |}
           (started s) :: rest.
Proof.
  intros s o. split; [reflexivity|]. split; [reflexivity|].
  pose proof (C8_inline_data_part_on_image_tab sampleHost
                (sampleEnv (okReply (answerBody "ok")) true) s emptyRemote
                eq_refl eq_refl) as H.
  cbv zeta in H. fold o in H.
  exact (proj1 H samplePng "iVBORw0KGgo=" eq_refl eq_refl eq_refl ltac:(discriminate)).
Defined.

(** C9.  A click on an entry of the history puts the entry's type, prompt
    and response into the active tab, the prompt and the response of the
    view, and touches nothing else: no request leaves the component and the
    store is unchanged. *)
Theorem C9_history_click_recalls_entry (env : Env) (item : HistoryItem) (s : State) (rm : Remote) :
  let o := invoke env (historyItemClick item) s rm in
  activeTab (ui o) = type item
  /\ prompt (ui o) = item_prompt item
  /\ response (ui o) = item_response item
  /\ calls o = []
  /\ remote o = rm
  /\ uncaught o = None
  /\ ui o = setActiveTab (type item) (setPrompt (item_prompt item)
                                        (setResponse (item_response item) s)).
Proof. cbv zeta. repeat split. Qed.

(** C10 as stated fails: with no store handle and no user id the handler
    returns before it sets anything.  A mentor submission of the session
    without Firebase opens the modal; the category chosen there is not set
    locally, no write is attempted and the modal stays open. *)
Lemma C10_counterexample :
  let env := sampleEnv (okReply (answerBody "ok")) true in
  let s := ui (invoke env (getAiResponse sampleHost)
                      (offlineSession "mentor" "Why do we need fractions?" None)
                      emptyRemote) in
  let o := invoke env (handleMbtiSelect sampleHost "INTJ") s emptyRemote in
  showMbtiModal s = true
  /\ studentMbti (ui o) = None
  /\ calls o = []
  /\ showMbtiModal (ui o) = true.
Proof. cbv zeta. repeat split. Qed.

(** C10, amended.  For every category chosen in the modal while the store
    handle and the user id are present: the write to the profile document
    is the handler's only request and is issued with the local category
    already set to the choice.  If the store rejects the write the local
    category still is the choice, the error slot holds the save message, the
    modal keeps its state and the store is unchanged, so local and stored
    category differ.  The handler closes an open modal only when the store
    has accepted the write.  Without the store handle or the user id the
    handler returns at once: no write is attempted and nothing changes. *)
Theorem C10_profile_set_before_save (h : Host) (env : Env) (choice : string)
        (s : State) (rm : Remote) :
  let o := invoke env (handleMbtiSelect h choice) s rm in
  (storeReady s = true ->
   exists c,
     calls o = [c]
     /\ call_request c = ReqSetDoc (userDocPath h s) choice
     /\ studentMbti (call_ui c) = Some choice
     /\ studentMbti (ui o) = Some choice)
  /\ (forall c, In c (calls o) -> is_setDoc c = true ->
     calls o = [c]
     /\ call_request c = ReqSetDoc (userDocPath h s) choice
     /\ studentMbti (call_ui c) = Some choice)
  /\ (forall message,
        storeReady s = true ->
        setDoc env (userDocPath h s) choice = Rejected message ->
        studentMbti (ui o) = Some choice
        /\ error (ui o) = mbtiSaveFailedMessage
        /\ showMbtiModal (ui o) = showMbtiModal s
        /\ remote o = rm)
  /\ (forall saved,
        storeReady s = true ->
        setDoc env (userDocPath h s) choice = Fulfilled saved ->
        studentMbti (ui o) = Some choice
        /\ showMbtiModal (ui o) = false
        /\ error (ui o) = error s
        /\ remote o = remote_setDoc (userDocPath h s) choice rm)
  /\ (showMbtiModal s = true -> showMbtiModal (ui o) = false ->
      storeReady s = true
      /\ exists saved, setDoc env (userDocPath h s) choice = Fulfilled saved)
  /\ (storeReady s = false -> calls o = [] /\ ui o = s /\ remote o = rm).
Proof.
  intros o. subst o. unfold invoke, handleMbtiSelect.
  assert (Hguard : negb (is_some (db s)) || negb (truthy_slot (userId s)) = negb (storeReady s)).
  { unfold storeReady. now rewrite negb_andb. }
  rewrite Hguard.
  destruct (storeReady s) eqn:Hst; cbn [negb run].
  - destruct (setDoc env (userDocPath h s) choice) as [saved|message] eqn:Hset;
      cbn [run calls ui remote app].
    + split; [intros _; eexists; repeat split|].
      split.
      { intros c [<-|[]] _. repeat split. }
      split; [intros message _ Hrej; discriminate Hrej|].
      split; [intros saved' _ _; repeat split|].
      split; [|discriminate].
      intros _ _. split; [reflexivity|]. now exists saved.
    + split; [intros _; eexists; repeat split|].
      split.
      { intros c [<-|[]] _. repeat split. }
      split; [intros message' _ _; repeat split|].
      split; [intros saved _ Hful; discriminate Hful|].
      split; [|discriminate].
      cbn. intros Hopen Hclosed. congruence.
  - cbn [calls ui remote]. split; [discriminate|]. split; [intros c []|].
    split; [intros message Hready; discriminate Hready|].
    split; [intros saved Hready; discriminate Hready|].
    split; [intros Hopen Hclosed; congruence|].
    intros _. repeat split.
Qed.

Lemma C10_witness :
  let s := setShowMbtiModal true (session "mentor" "Why do we need fractions?" None) in
  let env := sampleEnv failedReply false in
  let o := invoke env (handleMbtiSelect sampleHost "INFP") s emptyRemote in
  storeReady s = true
  /\ studentMbti (ui o) = Some "INFP"
  /\ error (ui o) = mbtiSaveFailedMessage
  /\ showMbtiModal (ui o) = true
  /\ merged (remote o) = [].
Proof.
  intros s env o. split; [reflexivity|].
  pose proof (C10_profile_set_before_save sampleHost env "INFP" s emptyRemote) as H.
  cbv zeta in H. fold o in H.
  destruct H as (_ & _ & Hrej & _).
  destruct (Hrej "unavailable" eq_refl eq_refl) as (Hlocal & Herr & Hmodal & Hrm).
  split; [exact Hlocal|]. split; [exact Herr|].
  split; [rewrite Hmodal; reflexivity|rewrite Hrm; reflexivity].
Defined.

(** ** The sort of the history *)

Section SortByKey.

Context {A : Type}.
Variable cmp : A -> A -> Z.
Variable key : A -> Z.
Hypothesis cmp_key : forall a b, cmp a b = (key b - key a)%Z.

Lemma sortInsert_perm (x : A) (l : list A) : Permutation (sortInsert cmp x l) (x :: l).
Proof.
  induction l as [|y l IH]; cbn [sortInsert]; [reflexivity|].
  destruct (cmp x y <=? 0)%Z; [reflexivity|].
  rewrite IH. apply perm_swap.
Qed.

Lemma arraySort_perm (l : list A) : Permutation (arraySort cmp l) l.
Proof.
  induction l as [|x l IH]; cbn [arraySort fold_right]; [reflexivity|].
  fold (arraySort cmp l). rewrite sortInsert_perm. now constructor.
Qed.

(** [a] may stand before [b] when its key is not the smaller one. *)
Lemma sortInsert_sorted (x : A) (l : list A) :
  StronglySorted (fun a b => (key b <= key a)%Z) l ->
  StronglySorted (fun a b => (key b <= key a)%Z) (sortInsert cmp x l).
Proof.
  induction 1 as [|y l Hsorted IH Hall]; cbn [sortInsert].
  - repeat constructor.
  - destruct (Z.leb_spec (cmp x y) 0) as [Hle|Hgt]; rewrite cmp_key in *.
    + constructor; [now constructor|].
      constructor; [lia|].
      eapply Forall_impl; [|exact Hall].
      cbn beta. intros z Hyz. lia.
    + constructor; [exact IH|].
      rewrite (sortInsert_perm x l). constructor; [lia|exact Hall].
Qed.

Lemma arraySort_sorted (l : list A) :
  StronglySorted (fun a b => (key b <= key a)%Z) (arraySort cmp l).
Proof.
  induction l as [|x l IH]; cbn [arraySort fold_right]; [constructor|].
  apply sortInsert_sorted. exact IH.
Qed.

(** The sort is stable: entries of one key keep their order. *)
Lemma sortInsert_stable (k : Z) (x : A) (l : list A) :
  filter (fun a => (key a =? k)%Z) (sortInsert cmp x l)
  = filter (fun a => (key a =? k)%Z) (x :: l).
Proof.
  induction l as [|y l IH]; cbn [sortInsert]; [reflexivity|].
  destruct (Z.leb_spec (cmp x y) 0) as [Hle|Hgt]; [reflexivity|].
  rewrite cmp_key in Hgt.
  cbn [filter] in *. rewrite IH.
  destruct (Z.eqb_spec (key x) k), (Z.eqb_spec (key y) k); try reflexivity. lia.
Qed.

Lemma arraySort_stable (k : Z) (l : list A) :
  filter (fun a => (key a =? k)%Z) (arraySort cmp l) = filter (fun a => (key a =? k)%Z) l.
Proof.
  induction l as [|x l IH]; cbn [arraySort fold_right]; [reflexivity|].
  fold (arraySort cmp l). rewrite sortInsert_stable. cbn [filter]. now rewrite IH.
Qed.

End SortByKey.

(** Sortedness for a weaker relation, given what the members satisfy. *)
Lemma StronglySorted_refine {A : Type} (R R' : A -> A -> Prop) (P : list A -> Prop) (l : list A) :
  (forall x l', P (x :: l') -> P l') ->
  (forall x l' y, P (x :: l') -> In y l' -> R x y -> R' x y) ->
  P l -> StronglySorted R l -> StronglySorted R' l.
Proof.
  intros Htail Hstep HP Hs. induction Hs as [|x l Hs IH Hall]; [constructor|].
  constructor.
  - apply IH. exact (Htail x l HP).
  - rewrite Forall_forall in *. intros y Hy. exact (Hstep x l y HP Hy (Hall y Hy)).
Qed.

Lemma resolvedTimestamps_In (l : list HistoryItem) (x : HistoryItem) (t : Timestamp) :
  In x l -> timestamp x = Some t -> In (toDate t) (resolvedTimestamps l).
Proof.
  intros Hx Hts. unfold resolvedTimestamps. apply in_flat_map.
  exists x. split; [exact Hx|]. rewrite Hts. now left.
Qed.

Lemma resolvedTimestamps_perm (l l' : list HistoryItem) :
  Permutation l l' -> Permutation (resolvedTimestamps l) (resolvedTimestamps l').
Proof.
  intros Hp. unfold resolvedTimestamps.
  induction Hp as [|x l l' Hp IH|x y l|l l' l'' Hp1 IH1 Hp2 IH2]; cbn [flat_map].
  - reflexivity.
  - now apply Permutation_app_head.
  - rewrite !app_assoc. apply Permutation_app_tail, Permutation_app_comm.
  - now transitivity
          (flat_map (fun x => match timestamp x with Some t => [toDate t] | None => [] end) l').
Qed.

(** C6 as stated fails twice.  Two exchanges stamped within one
    millisecond have distinct timestamps, yet [toDate()] gives both the same
    instant: the comparison is 0 and they stay as the snapshot delivered
    them, the earlier one first.  And an entry with no resolved timestamp
    counts as instant 0, so it is moved ahead of an entry stamped before the
    epoch. *)
Lemma C6_counterexample :
  (let earlier := {| seconds := 1717372800; nanoseconds := 100000 |} in
   let later := {| seconds := 1717372800; nanoseconds := 900000 |} in
   let shown :=
     history (ui (invoke (sampleEnv failedReply true)
                         (onSnapshotNext [ stampedDoc "earlier" (Some earlier);
                                           stampedDoc "later" (Some later) ])
                         (session "qa" "" None) emptyRemote)) in
   earlier <> later
   /\ seconds earlier = seconds later
   /\ (nanoseconds earlier < nanoseconds later)%Z
   /\ map id shown = [ "earlier"; "later" ])
  /\
  (let shown :=
     history (ui (invoke (sampleEnv failedReply true)
                         (onSnapshotNext [ sampleDoc "before-1970" (Some (-1)%Z);
                                           sampleDoc "pending" None ])
                         (session "qa" "" None) emptyRemote)) in
   map id shown = [ "pending"; "before-1970" ]).
Proof.
  cbv zeta. split; [|reflexivity].
  split; [discriminate|]. split; [reflexivity|]. split; reflexivity.
Qed.

(** C6, amended.  After every snapshot, the history on display is the
    snapshot's entries and nothing else, ordered by the millisecond instant
    [toDate()] gives each timestamp, latest first, an entry with no resolved
    timestamp counting as instant 0: no entry stands before one of a later
    instant.  When the instants of the resolved entries are pairwise
    distinct, each resolved entry is strictly later than every resolved
    entry after it.  When every resolved instant is after the epoch, every
    entry that follows one with no resolved timestamp has none either, so
    those entries come last. *)
Theorem C6_history_sorted_newest_first
        (env : Env) (querySnapshot : list QueryDocumentSnapshot) (s : State) (rm : Remote) :
  let o := invoke env (onSnapshotNext querySnapshot) s rm in
  let shown := history (ui o) in
  calls o = []
  /\ Permutation shown (map itemOf querySnapshot)
  /\ StronglySorted (fun a b => (dateOrZero b <= dateOrZero a)%Z) shown
  /\ StronglySorted
       (fun a b => forall ta tb, timestamp a = Some ta -> timestamp b = Some tb ->
                                 (toDate tb <= toDate ta)%Z)
       shown
  /\ (NoDup (resolvedTimestamps (map itemOf querySnapshot)) ->
      StronglySorted
        (fun a b => forall ta tb, timestamp a = Some ta -> timestamp b = Some tb ->
                                  (toDate tb < toDate ta)%Z)
        shown)
  /\ (Forall (fun ms => (0 < ms)%Z) (resolvedTimestamps (map itemOf querySnapshot)) ->
      StronglySorted (fun a b => timestamp a = None -> timestamp b = None) shown).
Proof.
  cbv zeta. unfold invoke, onSnapshotNext. cbn [run ui calls setHistory history].
  set (items := map itemOf querySnapshot).
  assert (Hperm : Permutation (arraySort compareFn items) items)
    by apply arraySort_perm.
  assert (Hsorted : StronglySorted (fun a b => (dateOrZero b <= dateOrZero a)%Z)
                                   (arraySort compareFn items))
    by (apply (arraySort_sorted compareFn dateOrZero); reflexivity).
  split; [reflexivity|]. split; [exact Hperm|]. split; [exact Hsorted|]. split; [|split].
  - apply (StronglySorted_refine _ _ (fun _ => True) _) with (4 := Hsorted); [trivial| |trivial].
    intros x l' y _ _ Hle ta tb Hta Htb.
    unfold dateOrZero in Hle. now rewrite Hta, Htb in Hle.
  - intros Hnodup.
    apply (StronglySorted_refine _ _ (fun l => NoDup (resolvedTimestamps l)) _)
      with (4 := Hsorted).
    + intros x l' Hnd. unfold resolvedTimestamps in *. cbn [flat_map] in Hnd.
      now apply NoDup_app_remove_l in Hnd.
    + intros x l' y Hnd Hy Hle ta tb Hta Htb.
      unfold dateOrZero in Hle. rewrite Hta, Htb in Hle.
      assert (toDate tb <> toDate ta); [|lia].
      intros Heq. unfold resolvedTimestamps in Hnd. cbn [flat_map] in Hnd.
      rewrite Hta in Hnd. cbn [app] in Hnd. apply NoDup_cons_iff in Hnd.
      apply (proj1 Hnd). rewrite <- Heq. exact (resolvedTimestamps_In l' y tb Hy Htb).
    + eapply Permutation_NoDup; [|exact Hnodup].
      apply resolvedTimestamps_perm. now symmetry.
  - intros Hpos.
    apply (StronglySorted_refine _ _
             (fun l => Forall (fun ms => (0 < ms)%Z) (resolvedTimestamps l)) _)
      with (4 := Hsorted).
    + intros x l' Hall. unfold resolvedTimestamps in *. cbn [flat_map] in Hall.
      apply Forall_app in Hall. exact (proj2 Hall).
    + intros x l' y Hall Hy Hle Hnone.
      destruct (timestamp y) as [tb|] eqn:Htb; [|reflexivity].
      unfold dateOrZero in Hle. rewrite Hnone, Htb in Hle.
      unfold resolvedTimestamps in Hall. cbn [flat_map] in Hall.
      apply Forall_app in Hall. destruct Hall as [_ Hall].
      rewrite Forall_forall in Hall.
      specialize (Hall (toDate tb) (resolvedTimestamps_In l' y tb Hy Htb)). lia.
    + eapply Permutation_Forall; [|exact Hpos].
      apply resolvedTimestamps_perm. now symmetry.
Qed.

Lemma C6_witness :
  let o := invoke (sampleEnv failedReply true) (onSnapshotNext sampleSnapshot)
                  (session "qa" "" None) emptyRemote in
  let shown := history (ui o) in
  NoDup (resolvedTimestamps (map itemOf sampleSnapshot))
  /\ Forall (fun ms => (0 < ms)%Z) (resolvedTimestamps (map itemOf sampleSnapshot))
  /\ map id shown = [ "tuesday"; "monday"; "pending" ]
  /\ StronglySorted
       (fun a b => forall ta tb, timestamp a = Some ta -> timestamp b = Some tb ->
                                 (toDate tb < toDate ta)%Z)
       shown
  /\ StronglySorted (fun a b => timestamp a = None -> timestamp b = None) shown.
Proof.
  intros o shown.
  assert (Hnodup : NoDup (resolvedTimestamps (map itemOf sampleSnapshot))).
  { cbn. repeat constructor; cbn; intuition discriminate. }
  assert (Hpos : Forall (fun ms => (0 < ms)%Z) (resolvedTimestamps (map itemOf sampleSnapshot))).
  { cbn. repeat constructor. }
  pose proof (C6_history_sorted_newest_first (sampleEnv failedReply true) sampleSnapshot
                (session "qa" "" None) emptyRemote) as H.
  cbv zeta in H. fold o in H. fold shown in H.
  destruct H as (_ & _ & _ & _ & Hstrict & Hlast).
  split; [exact Hnodup|]. split; [exact Hpos|]. split; [reflexivity|].
  split; [exact (Hstrict Hnodup)|exact (Hlast Hpos)].
Defined.

(** * Further properties of the handlers *)

(** ** How a submission ends *)

Lemma thrownBeforeAnswer_none (h : Host) (settled : Settled HttpResponse) :
  thrownBeforeAnswer h settled = None ->
  exists apiResponse,
    settled = Fulfilled apiResponse
    /\ ok apiResponse = true
    /\ json_body apiResponse = Fulfilled (parsedBody settled)
    /\ parsedBody settled <> JNull.
Proof.
  destruct settled as [r|message]; cbn [thrownBeforeAnswer]; [|discriminate].
  destruct (ok r) eqn:Hok; cbn [negb]; [|discriminate].
  destruct (json_body r) as [result|message] eqn:Hbody; [|discriminate].
  intros Hnone. exists r. cbn [parsedBody]. rewrite Hbody.
  split; [reflexivity|]. split; [exact Hok|]. split; [reflexivity|].
  destruct result; (discriminate Hnone) || discriminate.
Qed.

Lemma getAiResponse_failed (h : Host) (env : Env) (s : State) (rm : Remote)
      (payload : Payload) (message : string) :
  inputMissing s = false ->
  mbtiMissing s = false ->
  buildPayload s = Some payload ->
  thrownBeforeAnswer h (fetch env apiUrl payload) = Some message ->
  invoke env (getAiResponse h) s rm = endsFailed s rm payload message.
Proof.
  intros Hin Hmb Hpay Hthrown.
  rewrite (getAiResponse_fetches h env s rm payload) by assumption.
  destruct (fetch env apiUrl payload) as [r|m]; cbn [thrownBeforeAnswer] in Hthrown.
  2:{ injection Hthrown as ->. apply run_catchBlock. }
  destruct (ok r) eqn:Hok; cbn [negb] in Hthrown.
  2:{ injection Hthrown as <-. now apply afterFetch_not_ok. }
  unfold afterFetch. rewrite Hok. cbn [negb].
  destruct (json_body r) as [result|m]; [|injection Hthrown as ->; apply run_catchBlock].
  destruct result; try discriminate Hthrown.
  injection Hthrown as <-. cbn [generatedText]. apply run_catchBlock.
Qed.

Lemma getAiResponse_answered (h : Host) (env : Env) (s : State) (rm : Remote)
      (payload : Payload) :
  inputMissing s = false ->
  mbtiMissing s = false ->
  buildPayload s = Some payload ->
  thrownBeforeAnswer h (fetch env apiUrl payload) = None ->
  let answer := answerOf (parsedBody (fetch env apiUrl payload)) in
  invoke env (getAiResponse h) s rm
  = if storeReady s then
      match addDoc env (historyCollectionPath h s) (exchangeOf s answer) with
      | Fulfilled _ => endsStored h s rm payload answer
      | Rejected message => endsUnstored h s rm payload answer message
      end
    else endsShown s rm payload answer.
Proof.
  intros Hin Hmb Hpay Hnone answer. subst answer.
  destruct (thrownBeforeAnswer_none h _ Hnone) as (r & Hfetch & Hok & Hbody & Hnn).
  rewrite (getAiResponse_fetches h env s rm payload) by assumption.
  rewrite Hfetch in *.
  destruct (storeReady s) eqn:Hst.
  - rewrite (afterFetch_answer_store h env s r _) by eassumption. cbv zeta.
    destruct (addDoc env _ _); reflexivity.
  - now rewrite (afterFetch_answer_no_store h env s r _) by eassumption.
Qed.

(** Every submission ends in one of seven ways. *)
Lemma getAiResponse_cases (h : Host) (env : Env) (s : State) (rm : Remote) :
  let o := invoke env (getAiResponse h) s rm in
  o = {| ui := setError emptyInputMessage s; remote := rm; calls := []; uncaught := None |}
  \/ o = {| ui := setShowMbtiModal true (setError mbtiNeededMessage s);
            remote := rm; calls := []; uncaught := None |}
  \/ o = {| ui := started s; remote := rm; calls := [];
            uncaught := Some (typeErrorMessage h) |}
  \/ (exists payload message, o = endsFailed s rm payload message)
  \/ (exists payload answer, truthy (Some answer) = true /\ o = endsShown s rm payload answer)
  \/ (exists payload answer, truthy (Some answer) = true /\ o = endsStored h s rm payload answer)
  \/ (exists payload answer message,
        truthy (Some answer) = true /\ o = endsUnstored h s rm payload answer message).
Proof.
  cbv zeta.
  destruct (inputMissing s) eqn:Hin.
  { left. now apply getAiResponse_inputMissing. }
  destruct (mbtiMissing s) eqn:Hmb.
  { right; left. now apply getAiResponse_mbtiMissing. }
  destruct (buildPayload s) as [payload|] eqn:Hpay.
  2:{ do 2 right; left. now apply getAiResponse_typeError. }
  destruct (thrownBeforeAnswer h (fetch env apiUrl payload)) as [message|] eqn:Hthrown.
  { do 3 right; left. exists payload, message. now apply getAiResponse_failed. }
  rewrite (getAiResponse_answered h env s rm payload) by assumption. cbv zeta.
  assert (Htruthy : forall result, truthy (Some (answerOf result)) = true).
  { intros result. unfold answerOf, js_or.
    destruct (firstText (js_dot result "candidates")) as [x|] eqn:Hx; [|reflexivity].
    destruct (truthy (Some x)) eqn:Ht; [exact Ht|reflexivity]. }
  destruct (storeReady s).
  - destruct (addDoc env _ _) as [docId|message].
    + do 5 right; left. eexists _, _. split; [apply Htruthy|reflexivity].
    + do 6 right. eexists _, _, _. split; [apply Htruthy|reflexivity].
  - do 4 right; left. eexists _, _. split; [apply Htruthy|reflexivity].
Qed.

(** The answer drawn from a body is never falsy. *)
Lemma answerOf_truthy (result : json) : truthy (Some (answerOf result)) = true.
Proof.
  unfold answerOf, js_or.
  destruct (firstText (js_dot result "candidates")) as [x|] eqn:Hx; [|reflexivity].
  destruct (truthy (Some x)) eqn:Ht; [exact Ht|reflexivity].
Qed.

Lemma string_app_assoc (a b c : string) : ((a ++ b) ++ c)%string = (a ++ b ++ c)%string.
Proof.
  induction a as [|x a IH]; cbn [append]; [reflexivity|]. now rewrite IH.
Qed.

Lemma string_app_nil_r (a : string) : (a ++ "")%string = a.
Proof.
  induction a as [|x a IH]; cbn [append]; [reflexivity|]. now rewrite IH.
Qed.

Lemma truthy_str_error (message : string) :
  truthy_str (apiErrorPrefix ++ message) = true.
Proof. reflexivity. Qed.

(** X1.  On every tab the text sent is a fixed opening, the prompt as
    typed, and a fixed closing: the prompt is never cut, moved or escaped,
    and nothing of it leaks into the wrapper.  The four plain tabs put
    their instruction in front; the mentor tab puts the prompt between
    double quotes after its rules, which name the category twice; a tab id
    that is none of the five sends the prompt bare. *)
Theorem X1_every_template_wraps_the_prompt_whole (s : State) :
  exists pre post,
    (forall text, fullPrompt (setPrompt text s) = (pre ++ text ++ post)%string)
    /\ (activeTab s = "qa" -> pre = qaPrefix /\ post = "")
    /\ (activeTab s = "summary" -> pre = summaryPrefix /\ post = "")
    /\ (activeTab s = "quiz" -> pre = quizPrefix /\ post = "")
    /\ (activeTab s = "image" -> pre = imagePrefix /\ post = "")
    /\ (activeTab s = "mentor" ->
        pre = (mentorIntro ++ interpolate (studentMbti s) ++ mentorRules
               ++ interpolate (studentMbti s) ++ mentorQuestion ++ dquote)%string
        /\ post = (dquote ++ mentorEnd)%string)
    /\ (~ In (activeTab s) tabs -> pre = "" /\ post = "").
Proof.
  unfold fullPrompt. cbn [setPrompt activeTab prompt studentMbti].
  destruct (String.eqb_spec (activeTab s) "mentor") as [Hm|Hm].
  { exists (mentorIntro ++ interpolate (studentMbti s) ++ mentorRules
            ++ interpolate (studentMbti s) ++ mentorQuestion ++ dquote)%string,
           (dquote ++ mentorEnd)%string.
    split.
    - intros text. unfold mentorTemplate. now rewrite !string_app_assoc.
    - split; [intros H; rewrite Hm in H; discriminate H|].
      split; [intros H; rewrite Hm in H; discriminate H|].
      split; [intros H; rewrite Hm in H; discriminate H|].
      split; [intros H; rewrite Hm in H; discriminate H|].
      split; [intros _; split; reflexivity|].
      intros H. exfalso. apply H. rewrite Hm. now left. }
  destruct (String.eqb_spec (activeTab s) "qa") as [Hq|Hq].
  { exists qaPrefix, "". split; [intros text; now rewrite string_app_nil_r|].
    split; [intros _; split; reflexivity|].
    split; [intros H; rewrite Hq in H; discriminate H|].
    split; [intros H; rewrite Hq in H; discriminate H|].
    split; [intros H; rewrite Hq in H; discriminate H|].
    split; [intros H; rewrite Hq in H; discriminate H|].
    intros H. exfalso. apply H. rewrite Hq. right. now left. }
  destruct (String.eqb_spec (activeTab s) "summary") as [Hs|Hs].
  { exists summaryPrefix, "". split; [intros text; now rewrite string_app_nil_r|].
    split; [intros H; rewrite Hs in H; discriminate H|].
    split; [intros _; split; reflexivity|].
    split; [intros H; rewrite Hs in H; discriminate H|].
    split; [intros H; rewrite Hs in H; discriminate H|].
    split; [intros H; rewrite Hs in H; discriminate H|].
    intros H. exfalso. apply H. rewrite Hs. right. right. now left. }
  destruct (String.eqb_spec (activeTab s) "quiz") as [Hz|Hz].
  { exists quizPrefix, "". split; [intros text; now rewrite string_app_nil_r|].
    split; [intros H; rewrite Hz in H; discriminate H|].
    split; [intros H; rewrite Hz in H; discriminate H|].
    split; [intros _; split; reflexivity|].
    split; [intros H; rewrite Hz in H; discriminate H|].
    split; [intros H; rewrite Hz in H; discriminate H|].
    intros H. exfalso. apply H. rewrite Hz. do 3 right. now left. }
  destruct (String.eqb_spec (activeTab s) "image") as [Hi|Hi].
  { exists imagePrefix, "". split; [intros text; now rewrite string_app_nil_r|].
    split; [intros H; rewrite Hi in H; discriminate H|].
    split; [intros H; rewrite Hi in H; discriminate H|].
    split; [intros H; rewrite Hi in H; discriminate H|].
    split; [intros _; split; reflexivity|].
    split; [intros H; rewrite Hi in H; discriminate H|].
    intros H. exfalso. apply H. rewrite Hi. do 4 right. now left. }
  exists "", "". split; [intros text; cbn [append]; now rewrite string_app_nil_r|].
  split; [intros H; now elim Hq|].
  split; [intros H; now elim Hs|].
  split; [intros H; now elim Hz|].
  split; [intros H; now elim Hi|].
  split; [intros H; now elim Hm|].
  intros _. split; reflexivity.
Qed.

(** X2.  An attached image lets a submission with an empty prompt pass the
    first check on any tab, but away from the image tab the image is not
    sent: the request carries the tab's wrapper around an empty prompt as
    its only part. *)
Theorem X2_image_alone_passes_the_check_but_is_not_sent
        (h : Host) (env : Env) (s : State) (rm : Remote) :
  prompt s = "" ->
  truthy_slot (imageBase64 s) = true ->
  activeTab s <> "image" ->
  mbtiMissing s = false ->
  exists rest,
    calls (invoke env (getAiResponse h) s rm)
    = fetchCall
        {| contents := [ {| role := "user"; parts := [ TextPart (fullPrompt s) ] |} ] |}
        (started s) :: rest
    /\ (forall c, In c rest -> is_fetch c = false)
    /\ fullPrompt s = fullPrompt (setPrompt "" s)
    /\ (activeTab s = "qa" -> fullPrompt s = qaPrefix).
Proof.
  intros Hp Himg Htab Hmb.
  assert (Hin : inputMissing s = false)
    by (apply inputMissing_false_iff; now right).
  assert (Hpay : buildPayload s
                 = Some {| contents :=
                             [ {| role := "user"; parts := [ TextPart (fullPrompt s) ] |} ] |}).
  { unfold buildPayload. destruct (imageBase64 s); [|reflexivity].
    apply String.eqb_neq in Htab. now rewrite Htab. }
  assert (Hfull : fullPrompt s = fullPrompt (setPrompt "" s))
    by (unfold fullPrompt; cbn [setPrompt activeTab prompt studentMbti]; now rewrite Hp).
  destruct (thrownBeforeAnswer h (fetch env apiUrl
              {| contents := [ {| role := "user"; parts := [ TextPart (fullPrompt s) ] |} ] |}))
    as [message|] eqn:Hthrown.
  - rewrite (getAiResponse_failed h env s rm _ message Hin Hmb Hpay Hthrown).
    exists []. split; [reflexivity|]. split; [intros c []|]. split; [exact Hfull|].
    intros Hqa. unfold fullPrompt. rewrite Hqa, Hp. reflexivity.
  - rewrite (getAiResponse_answered h env s rm _ Hin Hmb Hpay Hthrown). cbv zeta.
    assert (Hqa : activeTab s = "qa" -> fullPrompt s = qaPrefix).
    { intros Hqa. unfold fullPrompt. rewrite Hqa, Hp. reflexivity. }
    destruct (storeReady s); [destruct (addDoc env _ _)|];
      eexists; (split; [reflexivity|]); (split; [|split; assumption]).
    + intros c [<-|[]]. reflexivity.
    + intros c [<-|[]]. reflexivity.
    + intros c [].
Qed.

Lemma X2_witness :
  let env := sampleEnv (okReply (answerBody "ok")) true in
  let picked := withImage (session "image" "" None) in
  let s := ui (invoke env (tabButtonClick "qa") picked emptyRemote) in
  prompt s = "" /\ truthy_slot (imageBase64 s) = true
  /\ exists rest,
       calls (invoke env (getAiResponse sampleHost) s emptyRemote)
       = fetchCall
           {| contents := [ {| role := "user"; parts := [ TextPart qaPrefix ] |} ] |}
           (started s) :: rest.
Proof.
  intros env picked s. split; [reflexivity|]. split; [reflexivity|].
  destruct (X2_image_alone_passes_the_check_but_is_not_sent sampleHost env s emptyRemote
              eq_refl eq_refl ltac:(discriminate) eq_refl)
    as (rest & Hcalls & _ & _ & Hqa).
  exists rest. rewrite Hcalls, (Hqa eq_refl). reflexivity.
Defined.

(** X3.  Whatever makes the call fail before an answer is drawn (the
    network, a status that is not a success, a body that is not JSON, a body
    that is [null]), the outcome is the same: the one request, nothing
    written, the failure message after the fixed prefix in the error slot,
    the answer slot empty, so that the answer displayed before the
    submission is gone, and the input cleared. *)
Theorem X3_any_failure_erases_the_previous_answer
        (h : Host) (env : Env) (s : State) (rm : Remote)
        (payload : Payload) (message : string) :
  inputMissing s = false ->
  mbtiMissing s = false ->
  buildPayload s = Some payload ->
  thrownBeforeAnswer h (fetch env apiUrl payload) = Some message ->
  let o := invoke env (getAiResponse h) s rm in
  calls o = [fetchCall payload (started s)]
  /\ remote o = rm
  /\ uncaught o = None
  /\ error (ui o) = (apiErrorPrefix ++ message)%string
  /\ response (ui o) = JStr ""
  /\ showsResponse (ui o) = false
  /\ showsError (ui o) = true
  /\ prompt (ui o) = ""
  /\ imageFile (ui o) = None
  /\ imageBase64 (ui o) = None
  /\ isLoading (ui o) = false.
Proof.
  intros Hin Hmb Hpay Hthrown o. subst o.
  rewrite (getAiResponse_failed h env s rm payload message) by assumption.
  repeat split.
Qed.

Lemma X3_witness :
  let s := setResponse (JStr "An earlier answer.") (session "qa" "And then?" None) in
  let env := sampleEnv (Rejected "Failed to fetch") true in
  let o := invoke env (getAiResponse sampleHost) s emptyRemote in
  response s = JStr "An earlier answer."
  /\ response (ui o) = JStr ""
  /\ error (ui o) = (apiErrorPrefix ++ "Failed to fetch")%string
  /\ added (remote o) = [].
Proof.
  intros s env o. split; [reflexivity|].
  pose proof (X3_any_failure_erases_the_previous_answer sampleHost env s emptyRemote
                {| contents := [ {| role := "user"; parts := [ TextPart (fullPrompt s) ] |} ] |}
                "Failed to fetch" eq_refl eq_refl eq_refl eq_refl) as H.
  cbv zeta in H. fold o in H.
  destruct H as (_ & Hrm & _ & Herr & Hresp & _).
  split; [exact Hresp|]. split; [exact Herr|]. rewrite Hrm. reflexivity.
Defined.

(** X4.  When the gateway answers and the store then rejects the write,
    the answer stays in the answer slot and the error slot takes the store's
    message after the fixed prefix; no record is appended, and the input is
    cleared all the same: the exchange is lost to the history.  When the
    answer is text, as the gateway's answers are, the view renders and shows
    both the answer and the error. *)
Theorem X4_rejected_write_keeps_the_answer_and_reports
        (h : Host) (env : Env) (s : State) (rm : Remote)
        (payload : Payload) (message : string) :
  inputMissing s = false ->
  mbtiMissing s = false ->
  buildPayload s = Some payload ->
  thrownBeforeAnswer h (fetch env apiUrl payload) = None ->
  storeReady s = true ->
  addDoc env (historyCollectionPath h s)
         (exchangeOf s (answerOf (parsedBody (fetch env apiUrl payload))))
  = Rejected message ->
  let o := invoke env (getAiResponse h) s rm in
  let answer := answerOf (parsedBody (fetch env apiUrl payload)) in
  response (ui o) = answer
  /\ error (ui o) = (apiErrorPrefix ++ message)%string
  /\ remote o = rm
  /\ calls o = [ fetchCall payload (started s);
                 addDocCall h s answer (setResponse answer (started s)) ]
  /\ prompt (ui o) = ""
  /\ imageBase64 (ui o) = None
  /\ isLoading (ui o) = false
  /\ (forall text,
        answer = JStr text ->
        renderThrows (ui o) = false
        /\ showsResponse (ui o) = true
        /\ showsError (ui o) = true).
Proof.
  intros Hin Hmb Hpay Hnone Hst Hrej o answer. subst o.
  rewrite (getAiResponse_answered h env s rm payload) by assumption.
  cbv zeta. fold answer. fold answer in Hrej. rewrite Hst, Hrej.
  cbn [endsUnstored ui remote calls response error cleared resetFileInput setImageBase64
       setImageFile setPrompt setIsLoading setError setResponse prompt imageBase64 isLoading].
  repeat (split; [reflexivity|]).
  intros text Htext.
  pose proof (answerOf_truthy (parsedBody (fetch env apiUrl payload))) as Ht.
  fold answer in Ht. rewrite Htext in Ht.
  cbn [truthy] in Ht.
  unfold renderThrows, previewThrows, showsResponse, showsError. rewrite Htext.
  cbn [cleared resetFileInput setImageBase64 setImageFile setPrompt setIsLoading setError
       setResponse response error activeTab imageBase64 imageFile truthy_slot
       truthy childThrows childText].
  unfold truthy_str at 1. rewrite Ht, andb_false_r. repeat split.
Qed.

Lemma X4_witness :
  let s := session "quiz" "Photosynthesis" None in
  let env := sampleEnv (okReply (answerBody "Q1 ...")) false in
  let o := invoke env (getAiResponse sampleHost) s emptyRemote in
  response (ui o) = JStr "Q1 ..."
  /\ error (ui o) = (apiErrorPrefix ++ "unavailable")%string
  /\ added (remote o) = []
  /\ showsResponse (ui o) = true.
Proof.
  intros s env o.
  pose proof (X4_rejected_write_keeps_the_answer_and_reports sampleHost env s emptyRemote
                {| contents := [ {| role := "user"; parts := [ TextPart (fullPrompt s) ] |} ] |}
                "unavailable" eq_refl eq_refl eq_refl eq_refl eq_refl eq_refl) as H.
  cbv zeta in H. fold o in H.
  destruct H as (Hresp & Herr & Hrm & _ & _ & _ & _ & Hshown).
  split; [exact Hresp|]. split; [exact Herr|]. split; [rewrite Hrm; reflexivity|].
  exact (proj1 (proj2 (Hshown "Q1 ..." eq_refl))).
Defined.

(** X5.  A submission, however it ends, leaves the store handle, the user
    id, the active tab, the profile category and the history list as they
    were: the new exchange reaches the list only through the subscription.
    It issues at most two requests, never one to the profile document, and
    never changes the stored profiles. *)
Theorem X5_submission_frame (h : Host) (env : Env) (s : State) (rm : Remote) :
  let o := invoke env (getAiResponse h) s rm in
  db (ui o) = db s
  /\ userId (ui o) = userId s
  /\ activeTab (ui o) = activeTab s
  /\ studentMbti (ui o) = studentMbti s
  /\ history (ui o) = history s
  /\ merged (remote o) = merged rm
  /\ length (calls o) <= 2
  /\ (forall c, In c (calls o) -> is_setDoc c = false).
Proof.
  cbv zeta.
  destruct (getAiResponse_cases h env s rm)
    as [H|[H|[H|[(p & m & H)|[(p & a & _ & H)|[(p & a & _ & H)|(p & a & m & _ & H)]]]]]];
    rewrite H; cbn; repeat split; try lia.
  all: intros c Hc; repeat (destruct Hc as [<-|Hc]; [reflexivity|]); destruct Hc.
Qed.

(** X6.  After a submission the idle hint is not part of the pane.  If
    the handler did not throw, the error slot or the answer slot is filled;
    and when the answer slot holds text and the preview renders, the whole
    view renders and shows an error or the answer.  Once a request has left,
    the loading flag is off, the submit button is enabled again and the
    preview is gone. *)
Theorem X6_pane_after_submission (h : Host) (env : Env) (s : State) (rm : Remote) :
  let o := invoke env (getAiResponse h) s rm in
  showsIdleHint (ui o) = false
  /\ (uncaught o = None ->
      truthy_str (error (ui o)) || truthy (Some (response (ui o))) = true)
  /\ (uncaught o = None ->
      (exists text, response (ui o) = JStr text) ->
      previewThrows (ui o) = false ->
      renderThrows (ui o) = false
      /\ showsError (ui o) || showsResponse (ui o) = true)
  /\ (calls o <> [] ->
      showsSpinner (ui o) = false
      /\ submitDisabled (ui o) = false
      /\ previewThrows (ui o) = false).
Proof.
  cbv zeta.
  assert (Htext : forall st : State,
             (exists text, response st = JStr text) ->
             previewThrows st = false ->
             truthy_str (error st) || truthy (Some (response st)) = true ->
             renderThrows st = false /\ showsError st || showsResponse st = true).
  { intros st [text Hr] Hprev Hslot.
    unfold renderThrows, showsError, showsResponse. rewrite Hprev, Hr in *.
    cbn [childThrows childText orb]. rewrite andb_false_r. split; [reflexivity|].
    change (truthy_str text) with (truthy (Some (JStr text))).
    now rewrite andb_true_r, andb_diag. }
  assert (Hslots : uncaught (invoke env (getAiResponse h) s rm) = None ->
                   truthy_str (error (ui (invoke env (getAiResponse h) s rm)))
                   || truthy (Some (response (ui (invoke env (getAiResponse h) s rm)))) = true).
  { destruct (getAiResponse_cases h env s rm)
      as [H|[H|[H|[(p & m & H)|[(p & a & Ha & H)|[(p & a & Ha & H)|(p & a & m & Ha & H)]]]]]];
      rewrite H;
      cbn [ui uncaught endsFailed endsShown endsStored endsUnstored cleared started
           resetFileInput setImageBase64 setImageFile setPrompt setIsLoading setError
           setResponse setShowMbtiModal error response];
      intros Hun; try reflexivity; try discriminate Hun.
    - now rewrite Ha, orb_true_r.
    - now rewrite Ha, orb_true_r. }
  split.
  { destruct (getAiResponse_cases h env s rm)
      as [H|[H|[H|[(p & m & H)|[(p & a & Ha & H)|[(p & a & Ha & H)|(p & a & m & Ha & H)]]]]]];
      rewrite H; unfold showsIdleHint;
      cbn [ui endsFailed endsShown endsStored endsUnstored cleared started
           resetFileInput setImageBase64 setImageFile setPrompt setIsLoading setError
           setResponse setShowMbtiModal error response isLoading].
    - now rewrite andb_false_r.
    - now rewrite andb_false_r.
    - reflexivity.
    - reflexivity.
    - now rewrite Ha.
    - now rewrite Ha.
    - now rewrite Ha. }
  split; [exact Hslots|].
  split; [intros Hun Hstr Hprev; apply Htext; auto|].
  destruct (getAiResponse_cases h env s rm)
    as [H|[H|[H|[(p & m & H)|[(p & a & Ha & H)|[(p & a & Ha & H)|(p & a & m & Ha & H)]]]]]];
    rewrite H; cbn [calls]; intros Hcalls; try (now elim Hcalls);
    unfold showsSpinner, submitDisabled, previewThrows;
    cbn [ui endsFailed endsShown endsStored endsUnstored cleared
         resetFileInput setImageBase64 setImageFile setPrompt setIsLoading
         isLoading activeTab imageBase64 imageFile truthy_slot];
    now rewrite andb_false_r.
Qed.

Lemma X6_witness :
  let s := session "summary" "A long text." None in
  let env := sampleEnv failedReply true in
  let o := invoke env (getAiResponse sampleHost) s emptyRemote in
  uncaught o = None /\ calls o <> []
  /\ renderThrows (ui o) = false
  /\ showsError (ui o) || showsResponse (ui o) = true
  /\ showsSpinner (ui o) = false.
Proof.
  intros s env o.
  pose proof (X6_pane_after_submission sampleHost env s emptyRemote) as H.
  cbv zeta in H. fold o in H. destruct H as (_ & _ & Hshown & Hoff).
  destruct (Hshown eq_refl (ex_intro _ "" eq_refl) eq_refl) as [Hrender Hpane].
  split; [reflexivity|]. split; [discriminate|].
  split; [exact Hrender|]. split; [exact Hpane|].
  exact (proj1 (Hoff ltac:(discriminate))).
Defined.

(** ** The answer, the profile and the recall *)

Lemma handleMbtiSelect_no_store (h : Host) (env : Env) (choice : string) (s : State) (rm : Remote) :
  storeReady s = false ->
  invoke env (handleMbtiSelect h choice) s rm
  = {| ui := s; remote := rm; calls := []; uncaught := None |}.
Proof.
  intros Hst. unfold invoke, handleMbtiSelect.
  unfold storeReady in Hst. rewrite <- negb_andb, Hst. reflexivity.
Qed.

Lemma handleMbtiSelect_rejected (h : Host) (env : Env) (choice message : string)
      (s : State) (rm : Remote) :
  storeReady s = true ->
  setDoc env (userDocPath h s) choice = Rejected message ->
  invoke env (handleMbtiSelect h choice) s rm
  = {| ui := setError mbtiSaveFailedMessage (setStudentMbti (Some choice) s);
       remote := rm;
       calls := [ {| call_request := ReqSetDoc (userDocPath h s) choice;
                     call_ui := setStudentMbti (Some choice) s |} ];
       uncaught := None |}.
Proof.
  intros Hst Hrej. unfold invoke, handleMbtiSelect.
  unfold storeReady in Hst. rewrite <- negb_andb, Hst. cbn [negb run]. now rewrite Hrej.
Qed.

Lemma handleMbtiSelect_saved (h : Host) (env : Env) (choice : string) (saved : unit)
      (s : State) (rm : Remote) :
  storeReady s = true ->
  setDoc env (userDocPath h s) choice = Fulfilled saved ->
  invoke env (handleMbtiSelect h choice) s rm
  = {| ui := setShowMbtiModal false (setStudentMbti (Some choice) s);
       remote := remote_setDoc (userDocPath h s) choice rm;
       calls := [ {| call_request := ReqSetDoc (userDocPath h s) choice;
                     call_ui := setStudentMbti (Some choice) s |} ];
       uncaught := None |}.
Proof.
  intros Hst Hful. unfold invoke, handleMbtiSelect.
  unfold storeReady in Hst. rewrite <- negb_andb, Hst. cbn [negb run]. now rewrite Hful.
Qed.

Lemma historyItemClick_outcome (env : Env) (item : HistoryItem) (s : State) (rm : Remote) :
  invoke env (historyItemClick item) s rm
  = {| ui := setActiveTab (type item) (setPrompt (item_prompt item)
                                         (setResponse (item_response item) s));
       remote := rm; calls := []; uncaught := None |}.
Proof. reflexivity. Qed.

(** X7.  Only the first part of the first candidate is read.  When its text
    is not empty it is the answer, verbatim, and every further part and
    candidate is dropped; when it is empty the answer is the placeholder,
    even if later parts or candidates carry text. *)
Theorem X7_answer_is_first_part_of_first_candidate
        (text : string) (moreParts moreCandidates : list json) :
  answerOf
    (JObj [ ("candidates",
             JArr (JObj [ ("content",
                           JObj [ ("parts",
                                   JArr (JObj [ ("text", JStr text) ] :: moreParts)) ]) ]
                   :: moreCandidates)) ])
  = if text =? "" then JStr noValidResponse else JStr text.
Proof.
  unfold answerOf, firstText. cbn.
  destruct (text =? ""); reflexivity.
Qed.

(** X8.  A category whose save was rejected still unlocks the mentor tab:
    the next mentor submission passes the profile check and sends the mentor
    template built on that category, although no profile was stored. *)
Theorem X8_unsaved_category_unlocks_mentor
        (h : Host) (env env' : Env) (choice message : string) (s : State) (rm : Remote) :
  storeReady s = true ->
  setDoc env (userDocPath h s) choice = Rejected message ->
  choice <> "" ->
  activeTab s = "mentor" ->
  prompt s <> "" ->
  let saved := invoke env (handleMbtiSelect h choice) s rm in
  let o := invoke env' (getAiResponse h) (ui saved) (remote saved) in
  merged (remote saved) = merged rm
  /\ exists rest,
       calls o
       = fetchCall
           {| contents :=
                [ {| role := "user";
                     parts := [ TextPart (mentorTemplate (Some choice) (prompt s)) ] |} ] |}
           (started (ui saved)) :: rest.
Proof.
  intros Hst Hrej Hne Htab Hp saved o. subst o saved.
  rewrite (handleMbtiSelect_rejected h env choice message s rm Hst Hrej). cbn [ui remote].
  split; [reflexivity|].
  apply getAiResponse_first_call.
  - apply inputMissing_false_iff. left. exact Hp.
  - unfold mbtiMissing. cbn [setError setStudentMbti activeTab studentMbti truthy_slot].
    unfold truthy_str. destruct (String.eqb_spec choice ""); [now elim Hne|].
    now rewrite andb_false_r.
  - unfold buildPayload, fullPrompt.
    cbn [setError setStudentMbti activeTab studentMbti prompt imageBase64 imageFile].
    rewrite Htab. cbn [String.eqb Ascii.eqb Bool.eqb andb].
    destruct (imageBase64 s); reflexivity.
Qed.

Lemma X8_witness :
  let s := setShowMbtiModal true (session "mentor" "Why do we need fractions?" None) in
  let saved := invoke (sampleEnv failedReply false) (handleMbtiSelect sampleHost "ISTJ")
                      s emptyRemote in
  let o := invoke (sampleEnv (okReply (answerBody "ok")) true) (getAiResponse sampleHost)
                  (ui saved) (remote saved) in
  merged (remote saved) = []
  /\ exists rest,
       calls o
       = fetchCall
           {| contents :=
                [ {| role := "user";
                     parts := [ TextPart (mentorTemplate (Some "ISTJ")
                                                         "Why do we need fractions?") ] |} ] |}
           (started (ui saved)) :: rest.
Proof.
  intros s saved o.
  exact (X8_unsaved_category_unlocks_mentor sampleHost
           (sampleEnv failedReply false) (sampleEnv (okReply (answerBody "ok")) true)
           "ISTJ" "unavailable" s emptyRemote
           eq_refl eq_refl ltac:(discriminate) eq_refl ltac:(discriminate)).
Defined.

(** X9.  Without the store handle or the user id, choosing a category
    changes nothing and requests nothing.  On the mentor tab with no
    category this is a dead end: the submission opens the modal, every
    choice in the modal is ignored, and the next submission is blocked the
    same way, the modal still open. *)
Theorem X9_without_store_the_modal_cannot_be_answered
        (h : Host) (env : Env) (choice : string) (s : State) (rm : Remote) :
  storeReady s = false ->
  activeTab s = "mentor" ->
  truthy_slot (studentMbti s) = false ->
  prompt s <> "" ->
  let first := invoke env (getAiResponse h) s rm in
  let chosen := invoke env (handleMbtiSelect h choice) (ui first) (remote first) in
  let second := invoke env (getAiResponse h) (ui chosen) (remote chosen) in
  showMbtiModal (ui first) = true
  /\ chosen = {| ui := ui first; remote := rm; calls := []; uncaught := None |}
  /\ calls second = []
  /\ studentMbti (ui second) = studentMbti s
  /\ showMbtiModal (ui second) = true
  /\ error (ui second) = mbtiNeededMessage.
Proof.
  intros Hst Htab Hmbti Hp first chosen second.
  assert (Hin : inputMissing s = false) by (apply inputMissing_false_iff; now left).
  assert (Hmb : mbtiMissing s = true) by (unfold mbtiMissing; now rewrite Htab, Hmbti).
  assert (Hfirst : first = {| ui := setShowMbtiModal true (setError mbtiNeededMessage s);
                              remote := rm; calls := []; uncaught := None |})
    by (now apply getAiResponse_mbtiMissing).
  assert (Hchosen : chosen = {| ui := ui first; remote := rm; calls := []; uncaught := None |}).
  { subst chosen. rewrite Hfirst. cbn [ui remote].
    now apply handleMbtiSelect_no_store. }
  subst second. rewrite Hchosen, Hfirst. cbn [ui remote].
  rewrite getAiResponse_mbtiMissing; [repeat split| |].
  - unfold inputMissing. cbn [setShowMbtiModal setError prompt imageBase64]. exact Hin.
  - unfold mbtiMissing. cbn [setShowMbtiModal setError activeTab studentMbti]. exact Hmb.
Qed.

Lemma X9_witness :
  let s := offlineSession "mentor" "Why do we need fractions?" None in
  let env := sampleEnv (okReply (answerBody "ok")) true in
  let first := invoke env (getAiResponse sampleHost) s emptyRemote in
  let chosen := invoke env (handleMbtiSelect sampleHost "ENTP") (ui first) (remote first) in
  let second := invoke env (getAiResponse sampleHost) (ui chosen) (remote chosen) in
  storeReady s = false
  /\ studentMbti (ui chosen) = None
  /\ calls second = []
  /\ showMbtiModal (ui second) = true.
Proof.
  intros s env first chosen second.
  pose proof (X9_without_store_the_modal_cannot_be_answered sampleHost env "ENTP" s emptyRemote
                eq_refl eq_refl eq_refl ltac:(discriminate)) as H.
  cbv zeta in H. fold first in H. fold chosen in H. fold second in H.
  destruct H as (_ & Hchosen & Hcalls & _ & Hmodal & _).
  split; [reflexivity|]. split; [rewrite Hchosen; reflexivity|].
  split; [exact Hcalls|exact Hmodal].
Defined.

(** X10.  A recall restores the tab, the prompt and the answer of an entry
    and nothing more: the image slots, the profile category and the error
    slot stay those of the session.  So an entry written from an image
    alone, listed under its fallback title, cannot be sent again from its
    recall when no image is attached: the submission is rejected as empty.
    And a record written after a recall carries the session's category, not
    the entry's. *)
Theorem X10_recall_restores_text_only
        (h : Host) (env : Env) (item : HistoryItem) (s : State) (rm : Remote) :
  let recalled := ui (invoke env (historyItemClick item) s rm) in
  let o := invoke env (getAiResponse h) recalled rm in
  imageFile recalled = imageFile s
  /\ imageBase64 recalled = imageBase64 s
  /\ studentMbti recalled = studentMbti s
  /\ error recalled = error s
  /\ (forall answer,
        data_mbti (exchangeOf recalled answer)
        = if truthy_slot (studentMbti s) then studentMbti s else None)
  /\ (item_prompt item = "" ->
      truthy_slot (imageBase64 s) = false ->
      historyEntryTitle item = "이미지 질문"
      /\ calls o = []
      /\ error (ui o) = emptyInputMessage
      /\ response (ui o) = item_response item).
Proof.
  cbv zeta. rewrite historyItemClick_outcome. cbn [ui].
  repeat (split; [reflexivity|]).
  intros Hp Himg.
  split; [unfold historyEntryTitle; now rewrite Hp|].
  rewrite getAiResponse_inputMissing; [repeat split|].
  unfold inputMissing. cbn [setActiveTab setPrompt setResponse prompt imageBase64].
  unfold truthy_str. now rewrite Hp, Himg.
Qed.

Lemma X10_witness :
  let item := {| id := "doc-7"; type := "image"; item_prompt := "";
                 item_response := JStr "A page of a textbook."; mbti := Some "INTJ";
                 timestamp := Some (fromMillis 1717372800000) |} in
  let s := session "qa" "" None in
  let env := sampleEnv (okReply (answerBody "ok")) true in
  let recalled := ui (invoke env (historyItemClick item) s emptyRemote) in
  let o := invoke env (getAiResponse sampleHost) recalled emptyRemote in
  activeTab recalled = "image" /\ calls o = [] /\ error (ui o) = emptyInputMessage.
Proof.
  intros item s env recalled o.
  pose proof (X10_recall_restores_text_only sampleHost env item s emptyRemote) as H.
  cbv zeta in H. fold recalled in H. fold o in H.
  destruct H as (_ & _ & _ & _ & _ & Hempty).
  destruct (Hempty eq_refl eq_refl) as (_ & Hcalls & Herr & _).
  split; [reflexivity|]. split; [exact Hcalls|exact Herr].
Defined.

(** ** More on the order of the history *)

Lemma sortInsert_resolved_before_pending (x : HistoryItem) (A P : list HistoryItem) :
  (0 < dateOrZero x)%Z ->
  Forall (fun p => dateOrZero p = 0%Z) P ->
  sortInsert compareFn x (A ++ P) = sortInsert compareFn x A ++ P.
Proof.
  intros Hx HP. induction A as [|y A IH]; simpl.
  - destruct HP as [|p P Hp HP]; [reflexivity|]. simpl.
    unfold compareFn. rewrite Hp.
    destruct (Z.leb_spec (0 - dateOrZero x) 0); [reflexivity|lia].
  - destruct (compareFn x y <=? 0)%Z; [reflexivity|]. now rewrite IH.
Qed.

Lemma sortInsert_pending_after_resolved (x : HistoryItem) (A P : list HistoryItem) :
  dateOrZero x = 0%Z ->
  Forall (fun a => (0 < dateOrZero a)%Z) A ->
  Forall (fun p => dateOrZero p = 0%Z) P ->
  sortInsert compareFn x (A ++ P) = A ++ x :: P.
Proof.
  intros Hx HA HP. induction HA as [|y A Hy HA IH]; simpl.
  - destruct HP as [|p P Hp HP]; [reflexivity|]. simpl.
    unfold compareFn. rewrite Hp, Hx. reflexivity.
  - unfold compareFn at 1. rewrite Hx.
    destruct (Z.leb_spec (dateOrZero y - 0) 0); [lia|]. now rewrite IH.
Qed.

Lemma pending_key (l : list HistoryItem) :
  Forall (fun p => dateOrZero p = 0%Z)
         (filter (fun x => negb (is_some (timestamp x))) l).
Proof.
  apply Forall_forall. intros p Hp. apply filter_In in Hp. destruct Hp as [_ Hp].
  unfold dateOrZero. destruct (timestamp p); [discriminate Hp|reflexivity].
Qed.

Lemma resolved_key (l : list HistoryItem) :
  Forall (fun ms => (0 < ms)%Z) (resolvedTimestamps l) ->
  Forall (fun a => (0 < dateOrZero a)%Z)
         (filter (fun x => is_some (timestamp x)) l).
Proof.
  intros Hpos. apply Forall_forall. intros a Ha. apply filter_In in Ha.
  destruct Ha as [Ha Hsome]. unfold dateOrZero.
  destruct (timestamp a) as [t|] eqn:Hts; [|discriminate Hsome].
  rewrite Forall_forall in Hpos. apply Hpos.
  exact (resolvedTimestamps_In l a t Ha Hts).
Qed.

(** X11.  With server instants after the epoch, the history on display is
    the entries with a resolved timestamp, sorted, followed by the entries
    still waiting for theirs, in the order of the snapshot: an exchange just
    written is listed at the bottom until its timestamp resolves. *)
Theorem X11_pending_entries_close_the_list
        (env : Env) (querySnapshot : list QueryDocumentSnapshot) (s : State) (rm : Remote) :
  Forall (fun ms => (0 < ms)%Z) (resolvedTimestamps (map itemOf querySnapshot)) ->
  let items := map itemOf querySnapshot in
  history (ui (invoke env (onSnapshotNext querySnapshot) s rm))
  = arraySort compareFn (filter (fun x => is_some (timestamp x)) items)
    ++ filter (fun x => negb (is_some (timestamp x))) items.
Proof.
  intros Hpos items. unfold invoke, onSnapshotNext. cbn [run ui setHistory history].
  fold items. fold items in Hpos. clearbody items.
  induction items as [|x l IH]; [reflexivity|].
  assert (Hl : Forall (fun ms => (0 < ms)%Z) (resolvedTimestamps l)).
  { unfold resolvedTimestamps in *. cbn [flat_map] in Hpos.
    apply Forall_app in Hpos. exact (proj2 Hpos). }
  cbn [arraySort fold_right filter]. fold (arraySort compareFn l). rewrite (IH Hl).
  destruct (timestamp x) as [ms|] eqn:Hts; cbn [is_some negb].
  - cbn [arraySort fold_right].
    fold (arraySort compareFn (filter (fun x => is_some (timestamp x)) l)).
    apply sortInsert_resolved_before_pending; [|apply pending_key].
    unfold dateOrZero. rewrite Hts.
    unfold resolvedTimestamps in Hpos. cbn [flat_map] in Hpos. rewrite Hts in Hpos.
    now inversion Hpos.
  - apply sortInsert_pending_after_resolved; [unfold dateOrZero; now rewrite Hts| |apply pending_key].
    eapply Permutation_Forall; [|exact (resolved_key l Hl)].
    symmetry. apply arraySort_perm.
Qed.

Lemma X11_witness :
  let shown := history (ui (invoke (sampleEnv failedReply true) (onSnapshotNext sampleSnapshot)
                                   (session "qa" "" None) emptyRemote)) in
  Forall (fun ms => (0 < ms)%Z) (resolvedTimestamps (map itemOf sampleSnapshot))
  /\ shown
     = arraySort compareFn (map itemOf [ sampleDoc "monday" (Some 1717372800000%Z);
                                         sampleDoc "tuesday" (Some 1717459200000%Z) ])
       ++ [ itemOf (sampleDoc "pending" None) ].
Proof.
  intros shown.
  assert (Hpos : Forall (fun ms => (0 < ms)%Z) (resolvedTimestamps (map itemOf sampleSnapshot))).
  { cbn. repeat constructor. }
  split; [exact Hpos|].
  exact (X11_pending_entries_close_the_list (sampleEnv failedReply true) sampleSnapshot
           (session "qa" "" None) emptyRemote Hpos).
Defined.

(** X12.  Entries of one instant, and so all the entries whose timestamp
    is not resolved, are displayed in the order the snapshot delivered
    them. *)
Theorem X12_equal_instants_keep_snapshot_order
        (env : Env) (querySnapshot : list QueryDocumentSnapshot) (s : State) (rm : Remote)
        (instant : Z) :
  filter (fun x => (dateOrZero x =? instant)%Z)
         (history (ui (invoke env (onSnapshotNext querySnapshot) s rm)))
  = filter (fun x => (dateOrZero x =? instant)%Z) (map itemOf querySnapshot).
Proof.
  unfold invoke, onSnapshotNext. cbn [run ui setHistory history].
  apply (arraySort_stable compareFn dateOrZero). reflexivity.
Qed.

(** ** The attached image *)

Lemma afterComma_app_none (a b : string) :
  afterComma a = None -> afterComma (a ++ b) = afterComma b.
Proof.
  induction a as [|c a IH]; cbn [append afterComma]; [reflexivity|].
  destruct (Ascii.eqb c ","%char); [discriminate|exact IH].
Qed.

Lemma beforeComma_none (b : string) : afterComma b = None -> beforeComma b = b.
Proof.
  induction b as [|c b IH]; cbn [afterComma beforeComma]; [reflexivity|].
  destruct (Ascii.eqb c ","%char); [discriminate|]. intros Hb. now rewrite IH.
Qed.

Lemma splitSecond_data_url (mime payload : string) :
  afterComma mime = None ->
  afterComma payload = None ->
  splitSecond ("data:" ++ mime ++ ";base64," ++ payload) = Some payload.
Proof.
  intros Hmime Hpayload. unfold splitSecond.
  change ("data:" ++ mime ++ ";base64," ++ payload)%string
    with ("data:" ++ (mime ++ ";base64" ++ "," ++ payload))%string.
  rewrite (afterComma_app_none "data:") by reflexivity.
  rewrite (afterComma_app_none mime) by assumption.
  cbn [append afterComma Ascii.eqb Bool.eqb]. now rewrite beforeComma_none.
Qed.

(** A submission keeps the tab, and either keeps both image slots or
    empties both. *)
Lemma getAiResponse_image_slots (h : Host) (env : Env) (s : State) (rm : Remote) :
  let o := invoke env (getAiResponse h) s rm in
  activeTab (ui o) = activeTab s
  /\ ((imageFile (ui o) = imageFile s /\ imageBase64 (ui o) = imageBase64 s)
      \/ (imageFile (ui o) = None /\ imageBase64 (ui o) = None)).
Proof.
  cbv zeta.
  destruct (getAiResponse_cases h env s rm)
    as [H|[H|[H|[(p & m & H)|[(p & a & _ & H)|[(p & a & _ & H)|(p & a & m & _ & H)]]]]]];
    rewrite H; cbn; (split; [reflexivity|]); (now left) || (now right).
Qed.

Lemma buildPayload_consistent (s : State) :
  imageConsistent s -> exists payload, buildPayload s = Some payload.
Proof.
  unfold imageConsistent, buildPayload. intros Hc.
  destruct (imageBase64 s) as [base64|]; [|eexists; reflexivity].
  cbn [truthy_slot] in Hc.
  destruct ((activeTab s =? "image") && truthy_str base64) eqn:Hcond; [|eexists; reflexivity].
  apply andb_true_iff in Hcond. destruct Hcond as [_ Ht].
  destruct (imageFile s); [eexists; reflexivity|]. now elim (Hc Ht).
Qed.

(** X13.  Cancelling the file dialog leaves the attachment as it is.
    Picking a file replaces the file at once and takes the first file only,
    but the payload stays the previous one until the reader is done: on the
    image tab a submission in between is sent with the MIME type of the new
    file and the payload of the old one. *)
Theorem X13_new_file_is_sent_with_the_old_payload
        (h : Host) (env : Env) (file : File) (others : list File) (base64 : string)
        (s : State) (rm : Remote) :
  activeTab s = "image" ->
  imageBase64 s = Some base64 ->
  base64 <> "" ->
  let picked := ui (invoke env (handleImageChange (file :: others)) s rm) in
  invoke env (handleImageChange []) s rm
  = {| ui := s; remote := rm; calls := []; uncaught := None |}
  /\ picked = setImageFile (Some file) s
  /\ imageBase64 picked = Some base64
  /\ exists rest,
       calls (invoke env (getAiResponse h) picked rm)
       = fetchCall
           {| contents :=
                [ {| role := "user";
                     parts := [ TextPart (fullPrompt s);
                                InlineDataPart (file_type file) base64 ] |} ] |}
           (started picked) :: rest.
Proof.
  intros Htab Hb64 Hne picked. subst picked.
  split; [reflexivity|]. split; [reflexivity|]. split; [exact Hb64|].
  change (ui (invoke env (handleImageChange (file :: others)) s rm))
    with (setImageFile (Some file) s).
  assert (Ht : truthy_str base64 = true).
  { unfold truthy_str. destruct (String.eqb_spec base64 ""); [now elim Hne|reflexivity]. }
  apply getAiResponse_first_call.
  - apply inputMissing_false_iff. right. cbn [setImageFile imageBase64].
    rewrite Hb64. exact Ht.
  - unfold mbtiMissing. cbn [setImageFile activeTab]. now rewrite Htab.
  - unfold buildPayload, fullPrompt.
    cbn [setImageFile activeTab imageBase64 imageFile prompt studentMbti].
    rewrite Hb64, Htab, Ht. reflexivity.
Qed.

Lemma X13_witness :
  let s := withImage (session "image" "And this one?" None) in
  let scan := {| file_name := "scan.jpg"; file_type := "image/jpeg" |} in
  let env := sampleEnv (okReply (answerBody "ok")) true in
  let picked := ui (invoke env (handleImageChange [scan]) s emptyRemote) in
  imageFile s = Some samplePng
  /\ exists rest,
       calls (invoke env (getAiResponse sampleHost) picked emptyRemote)
       = fetchCall
           {| contents :=
                [ {| role := "user";
                     parts := [ TextPart (imagePrefix ++ "And this one?");
                                InlineDataPart "image/jpeg" "iVBORw0KGgo=" ] |} ] |}
           (started picked) :: rest.
Proof.
  intros s scan env picked. split; [reflexivity|].
  exact (proj2 (proj2 (proj2
           (X13_new_file_is_sent_with_the_old_payload sampleHost env scan [] "iVBORw0KGgo="
              s emptyRemote eq_refl eq_refl ltac:(discriminate))))).
Defined.

(** X14.  The reader keeps what stands between the first and the second
    comma of its result.  For a data URL of the form
    data:TYPE;base64,PAYLOAD with no comma in TYPE or PAYLOAD that is the
    payload, and the preview on the image tab rebuilds the very URL from the
    file's type and the stored payload.  A result with no comma empties the
    payload slot; a failed read ([null]) throws in the callback and leaves
    the state as it was. *)
Theorem X14_reader_keeps_the_payload_of_a_data_url
        (h : Host) (env : Env) (f : File) (payload : string) (s : State) (rm : Remote) :
  afterComma (file_type f) = None ->
  afterComma payload = None ->
  let url := ("data:" ++ file_type f ++ ";base64," ++ payload)%string in
  let o := invoke env (readerOnLoadEnd h (Some url)) s rm in
  imageBase64 (ui o) = Some payload
  /\ calls o = []
  /\ (activeTab s = "image" -> imageFile s = Some f -> payload <> "" ->
      previewSrc h (ui o) = Fulfilled (Some url))
  /\ (forall other,
        afterComma other = None ->
        imageBase64 (ui (invoke env (readerOnLoadEnd h (Some other)) s rm)) = None)
  /\ invoke env (readerOnLoadEnd h None) s rm
     = {| ui := s; remote := rm; calls := []; uncaught := Some (typeErrorMessage h) |}.
Proof.
  intros Hmime Hpayload url o. subst o url.
  unfold invoke, readerOnLoadEnd. cbn [run ui calls setImageBase64 imageBase64].
  rewrite splitSecond_data_url by assumption.
  split; [reflexivity|]. split; [reflexivity|]. split.
  - intros Htab Hfile Hne. unfold previewSrc.
    cbn [setImageBase64 activeTab imageBase64 imageFile]. rewrite Htab, Hfile.
    unfold truthy_str. destruct (String.eqb_spec payload ""); [now elim Hne|reflexivity].
  - split; [|reflexivity]. intros other Hother. unfold splitSecond. now rewrite Hother.
Qed.

Lemma X14_witness :
  let s := setImageFile (Some samplePng) (session "image" "What is this?" None) in
  let url := "data:image/png;base64,iVBORw0KGgo=" in
  let o := invoke (sampleEnv failedReply true) (readerOnLoadEnd sampleHost (Some url))
                  s emptyRemote in
  imageBase64 (ui o) = Some "iVBORw0KGgo=" /\ previewSrc sampleHost (ui o) = Fulfilled (Some url).
Proof.
  intros s url o.
  pose proof (X14_reader_keeps_the_payload_of_a_data_url sampleHost (sampleEnv failedReply true)
                samplePng "iVBORw0KGgo=" s emptyRemote eq_refl eq_refl) as H.
  cbv zeta in H. destruct H as (Hslot & _ & Hpreview & _).
  split; [exact Hslot|exact (Hpreview eq_refl eq_refl ltac:(discriminate))].
Defined.

(** X15.  While a payload is only ever attached along with its file, a
    submission never throws out of the handler and the preview never throws
    while rendering.  Every handler keeps that agreement of the two image
    slots: a submission, a choice of category, a recall, a tab switch, a
    snapshot, a pick in the file dialog; and so does the end of a read that
    finds its file still attached. *)
Theorem X15_image_slots_stay_in_agreement
        (h : Host) (env : Env) (s : State) (rm : Remote) :
  imageConsistent s ->
  uncaught (invoke env (getAiResponse h) s rm) = None
  /\ (exists src, previewSrc h s = Fulfilled src)
  /\ imageConsistent (ui (invoke env (getAiResponse h) s rm))
  /\ (forall choice, imageConsistent (ui (invoke env (handleMbtiSelect h choice) s rm)))
  /\ (forall item, imageConsistent (ui (invoke env (historyItemClick item) s rm)))
  /\ (forall tab, imageConsistent (ui (invoke env (tabButtonClick tab) s rm)))
  /\ (forall snapshot, imageConsistent (ui (invoke env (onSnapshotNext snapshot) s rm)))
  /\ (forall files, imageConsistent (ui (invoke env (handleImageChange files) s rm)))
  /\ (forall result,
        imageFile s <> None ->
        imageConsistent (ui (invoke env (readerOnLoadEnd h result) s rm))).
Proof.
  intros Hc.
  split.
  { destruct (buildPayload_consistent s Hc) as [payload Hpay].
    destruct (getAiResponse_cases h env s rm)
      as [H|[H|[H|[(p & m & H)|[(p & a & _ & H)|[(p & a & _ & H)|(p & a & m & _ & H)]]]]]];
      rewrite H; try reflexivity.
    exfalso.
    destruct (inputMissing s) eqn:Hin;
      [rewrite getAiResponse_inputMissing in H by assumption; discriminate H|].
    destruct (mbtiMissing s) eqn:Hmb;
      [rewrite getAiResponse_mbtiMissing in H by assumption; discriminate H|].
    destruct (getAiResponse_settles h env s rm payload Hin Hmb Hpay) as (st & _ & _ & Hun).
    rewrite H in Hun. discriminate Hun. }
  split.
  { unfold previewSrc. unfold imageConsistent in Hc.
    destruct (activeTab s =? "image"); [|eexists; reflexivity].
    destruct (imageBase64 s) as [base64|]; [|eexists; reflexivity].
    cbn [truthy_slot] in Hc.
    destruct (truthy_str base64); [|eexists; reflexivity].
    destruct (imageFile s); [eexists; reflexivity|]. now elim Hc. }
  split.
  { destruct (getAiResponse_image_slots h env s rm) as [_ [[Hf Hb]|[Hf Hb]]];
      unfold imageConsistent; rewrite Hf, Hb; [exact Hc|discriminate]. }
  split.
  { intros choice. destruct (storeReady s) eqn:Hst.
    - destruct (setDoc env (userDocPath h s) choice) as [saved|message] eqn:Hset.
      + rewrite (handleMbtiSelect_saved h env choice saved s rm Hst Hset). exact Hc.
      + rewrite (handleMbtiSelect_rejected h env choice message s rm Hst Hset). exact Hc.
    - rewrite handleMbtiSelect_no_store by assumption. exact Hc. }
  split; [intros item; exact Hc|].
  split; [intros tab; exact Hc|].
  split; [intros snapshot; exact Hc|].
  split.
  { intros [|file others]; [exact Hc|]. unfold imageConsistent. cbn. discriminate. }
  intros [url|] Hfile; [|exact Hc]. unfold imageConsistent. cbn. intros _. exact Hfile.
Qed.

Lemma X15_witness :
  let s := withImage (session "image" "What is this?" None) in
  imageConsistent s
  /\ uncaught (invoke (sampleEnv failedReply true) (getAiResponse sampleHost) s emptyRemote)
     = None.
Proof.
  intros s.
  assert (Hc : imageConsistent s) by (intros _; discriminate).
  split; [exact Hc|].
  exact (proj1 (X15_image_slots_stay_in_agreement sampleHost (sampleEnv failedReply true)
                  s emptyRemote Hc)).
Defined.

(** X16.  A read that ends after a submission has cleared the image slots
    breaks the agreement: pick a file on the image tab, submit the typed
    prompt before the reader is done, let the reader finish.  The payload is
    then attached with no file, and rendering the preview throws on
    [imageFile.type], which takes the view down.  That condition is the very
    one under which a submission would throw before its [try]: whenever the
    request body cannot be built the preview cannot be rendered either. *)
Theorem X16_late_read_leaves_a_payload_without_file
        (h : Host) (env : Env) (file : File) (others : list File)
        (url base64 : string) (s : State) (rm : Remote) :
  activeTab s = "image" ->
  prompt s <> "" ->
  splitSecond url = Some base64 ->
  base64 <> "" ->
  let picked := ui (invoke env (handleImageChange (file :: others)) s rm) in
  let sent := invoke env (getAiResponse h) picked rm in
  let late := ui (invoke env (readerOnLoadEnd h (Some url)) (ui sent) (remote sent)) in
  calls sent <> []
  /\ uncaught sent = None
  /\ activeTab late = "image"
  /\ imageFile late = None
  /\ imageBase64 late = Some base64
  /\ ~ imageConsistent late
  /\ previewSrc h late = Rejected (typeErrorMessage h)
  /\ renderThrows late = true
  /\ (forall s', buildPayload s' = None ->
                 previewSrc h s' = Rejected (typeErrorMessage h)
                 /\ renderThrows s' = true).
Proof.
  intros Htab Hp Hsplit Hne picked sent late.
  assert (Ht : truthy_str base64 = true).
  { unfold truthy_str. destruct (String.eqb_spec base64 ""); [now elim Hne|reflexivity]. }
  assert (Hpicked : picked = setImageFile (Some file) s) by reflexivity.
  assert (Hin : inputMissing picked = false).
  { apply inputMissing_false_iff. left. rewrite Hpicked. exact Hp. }
  assert (Hmb : mbtiMissing picked = false).
  { unfold mbtiMissing. rewrite Hpicked. cbn [setImageFile activeTab]. now rewrite Htab. }
  destruct (buildPayload_consistent picked) as [payload Hpay].
  { rewrite Hpicked. unfold imageConsistent. cbn. discriminate. }
  destruct (getAiResponse_settles h env picked rm payload Hin Hmb Hpay)
    as (st & Hui & _ & Hun).
  destruct (getAiResponse_first_call h env picked rm payload Hin Hmb Hpay) as [rest Hcalls].
  destruct (getAiResponse_image_slots h env picked rm) as [Hkeep _].
  fold sent in Hui, Hcalls, Hkeep, Hun.
  assert (Hlate : late = setImageBase64 (Some base64) (ui sent)).
  { subst late. unfold invoke, readerOnLoadEnd. cbn [run ui]. now rewrite Hsplit. }
  assert (Hfile : imageFile late = None) by (rewrite Hlate, Hui; reflexivity).
  assert (Hb64 : imageBase64 late = Some base64) by (rewrite Hlate; reflexivity).
  assert (Hlatetab : activeTab late = "image").
  { rewrite Hlate. cbn [setImageBase64 activeTab]. rewrite Hkeep, Hpicked.
    cbn [setImageFile activeTab]. exact Htab. }
  split; [rewrite Hcalls; discriminate|].
  split; [exact Hun|]. split; [exact Hlatetab|].
  split; [exact Hfile|]. split; [exact Hb64|].
  split.
  { unfold imageConsistent. rewrite Hfile, Hb64. cbn [truthy_slot]. intros Hc.
    now apply (Hc Ht). }
  split.
  { unfold previewSrc. now rewrite Hlatetab, Hb64, Ht, Hfile. }
  split.
  { unfold renderThrows, previewThrows. rewrite Hlatetab, Hb64, Hfile.
    cbn [truthy_slot is_some negb]. now rewrite Ht. }
  intros s' Hnone. unfold buildPayload in Hnone.
  destruct (imageBase64 s') as [b|] eqn:Hb; [|discriminate Hnone].
  destruct ((activeTab s' =? "image") && truthy_str b) eqn:Hcond; [|discriminate Hnone].
  destruct (imageFile s') eqn:Hf; [discriminate Hnone|].
  apply andb_true_iff in Hcond. destruct Hcond as [Htab' Ht'].
  unfold previewSrc, renderThrows, previewThrows.
  rewrite Htab', Hb, Hf. cbn [truthy_slot is_some negb]. now rewrite Ht'.
Qed.

Lemma X16_witness :
  let s := session "image" "What does this page say?" None in
  let env := sampleEnv (okReply (answerBody "ok")) true in
  let picked := ui (invoke env (handleImageChange [samplePng]) s emptyRemote) in
  let sent := invoke env (getAiResponse sampleHost) picked emptyRemote in
  let late := ui (invoke env (readerOnLoadEnd sampleHost
                                (Some "data:image/png;base64,iVBORw0KGgo="))
                         (ui sent) (remote sent)) in
  imageFile late = None /\ imageBase64 late = Some "iVBORw0KGgo="
  /\ previewSrc sampleHost late = Rejected "Cannot read properties of null"
  /\ renderThrows late = true.
Proof.
  intros s env picked sent late.
  pose proof (X16_late_read_leaves_a_payload_without_file sampleHost env samplePng []
                "data:image/png;base64,iVBORw0KGgo=" "iVBORw0KGgo=" s emptyRemote
                eq_refl ltac:(discriminate) eq_refl ltac:(discriminate)) as H.
  cbv zeta in H. fold picked in H. fold sent in H. fold late in H.
  destruct H as (_ & _ & _ & Hfile & Hb64 & _ & Hprev & Hrender & _).
  split; [exact Hfile|]. split; [exact Hb64|]. split; [exact Hprev|exact Hrender].
Defined.

(** ** Start-up *)

Lemma truthy_str_true (x : string) : x <> "" -> truthy_str x = true.
Proof.
  intros Hne. unfold truthy_str. destruct (String.eqb_spec x ""); [now elim Hne|reflexivity].
Qed.

(** X17.  With no API key in the configuration, or when the SDK throws
    while it is set up, the listener is not registered, no store handle and
    no auth handle are set, and a message is displayed: the configuration
    message when the key is missing (the SDK is then not even called), the
    initialisation message otherwise.  From a state with no store handle the
    history is then never subscribed and a later submission never writes a
    record, whatever the gateway answers. *)
Theorem X17_without_configuration_nothing_is_stored
        (d : Deployment) (sdk : Settled unit) (a : AppState) :
  hasApiKey d = false \/ (exists message, sdk = Rejected message) ->
  db (view a) = None ->
  let a' := fst (initEffect d sdk a) in
  snd (initEffect d sdk a) = false
  /\ auth a' = auth a
  /\ db (view a') = None
  /\ error (view a')
     = (if hasApiKey d then initFailedMessage else configMissingMessage)
  /\ showsError (view a') = true
  /\ historySubscribed a' = false
  /\ (forall h env rm,
        remote (invoke env (getAiResponse h) (view a') rm) = rm
        /\ forall c, In c (calls (invoke env (getAiResponse h) (view a') rm)) ->
                     is_addDoc c = false).
Proof.
  intros Hbad Hdb a'.
  assert (Ha' : a' = onView (setError (if hasApiKey d then initFailedMessage
                                       else configMissingMessage)) a).
  { subst a'. unfold initEffect.
    destruct (hasApiKey d); cbn [negb fst]; [|reflexivity].
    destruct Hbad as [Hkey|[message ->]]; [discriminate Hkey|reflexivity]. }
  assert (Hsnd : snd (initEffect d sdk a) = false).
  { unfold initEffect. destruct (hasApiKey d); cbn [negb snd]; [|reflexivity].
    destruct Hbad as [Hkey|[message ->]]; [discriminate Hkey|reflexivity]. }
  assert (Hstore : storeReady (view a') = false).
  { rewrite Ha'. unfold storeReady. cbn [onView view setError db]. now rewrite Hdb. }
  split; [exact Hsnd|]. rewrite Ha'. cbn [onView view auth setError db error].
  split; [reflexivity|]. split; [exact Hdb|]. split; [reflexivity|].
  split; [destruct (hasApiKey d); reflexivity|].
  split.
  { unfold historySubscribed. cbn [onView view setError db isAuthReady].
    rewrite Hdb. cbn [is_some]. now rewrite andb_false_r. }
  intros h env rm. rewrite Ha' in Hstore. cbn [onView view] in Hstore.
  split.
  - destruct (getAiResponse_remote_inv h env
                (setError (if hasApiKey d then initFailedMessage else configMissingMessage)
                          (view a)) rm)
      as [Hsame|(c & docId & path & data & Hc & Hreq & _ & _)]; [exact Hsame|].
    assert (Hadd : is_addDoc c = true) by (unfold is_addDoc; now rewrite Hreq).
    destruct (getAiResponse_addDoc_inv h env _ rm c Hc Hadd)
      as (p & r & res & _ & _ & _ & _ & _ & _ & _ & Hready & _).
    rewrite Hready in Hstore. discriminate Hstore.
  - intros c Hc. destruct (is_addDoc c) eqn:Hadd; [|reflexivity].
    destruct (getAiResponse_addDoc_inv h env _ rm c Hc Hadd)
      as (p & r & res & _ & _ & _ & _ & _ & _ & _ & Hready & _).
    rewrite Hready in Hstore. discriminate Hstore.
Qed.

Lemma X17_witness :
  let d := {| host := sampleHost; hasApiKey := false; initialAuthToken := None |} in
  let a' := fst (initEffect d (Fulfilled tt) initialAppState) in
  let s := setPrompt "What is a fraction?" (setActiveTab "qa" (view a')) in
  error (view a') = configMissingMessage
  /\ historySubscribed a' = false
  /\ remote (invoke (sampleEnv (okReply (answerBody "A part of a whole.")) true)
                    (getAiResponse sampleHost) (view a') emptyRemote) = emptyRemote.
Proof.
  intros d a' s.
  pose proof (X17_without_configuration_nothing_is_stored d (Fulfilled tt) initialAppState
                (or_introl eq_refl) eq_refl) as H.
  cbv zeta in H. fold a' in H.
  destruct H as (_ & _ & _ & Herr & _ & Hsub & Hlater).
  split; [exact Herr|]. split; [exact Hsub|].
  exact (proj1 (Hlater sampleHost
                  (sampleEnv (okReply (answerBody "A part of a whole.")) true) emptyRemote)).
Defined.

(** X18.  When the listener is called with a user, it sets the user id and
    reads the profile document of that user, once.  A stored category that
    is not empty becomes the session's category and the modal is left as it
    is; a missing document, or one with no category, opens the modal and
    leaves the category as it is.  Either way the session is then ready,
    and with a store handle the history is subscribed. *)
Theorem X18_profile_read_decides_the_modal
        (env : AuthEnv) (d : Deployment) (uid : string) (a : AppState) :
  let path := ("/artifacts/" ++ appId (host d) ++ "/users/" ++ uid)%string in
  let o := authEvent env d (Some uid) a in
  auth_calls o = [ReqGetDoc path]
  /\ userId (view (app o)) = Some uid
  /\ (forall data category,
        getDoc env path = Fulfilled (Some data) ->
        profile_mbti data = Some category ->
        category <> "" ->
        studentMbti (view (app o)) = Some category
        /\ showMbtiModal (view (app o)) = showMbtiModal (view a)
        /\ isAuthReady (app o) = true
        /\ auth_uncaught o = None)
  /\ (getDoc env path = Fulfilled None
      \/ (exists data, getDoc env path = Fulfilled (Some data)
                       /\ truthy_slot (profile_mbti data) = false) ->
      showMbtiModal (view (app o)) = true
      /\ studentMbti (view (app o)) = studentMbti (view a)
      /\ isAuthReady (app o) = true
      /\ auth_uncaught o = None)
  /\ (isAuthReady (app o) = true -> db (view a) <> None -> uid <> "" ->
      historySubscribed (app o) = true).
Proof.
  intros path o. subst o. unfold authEvent, onAuthStateChangedCallback.
  cbn [runAuth app]. fold path.
  assert (Hsub : forall b : AppState,
             userId (view b) = Some uid -> db (view b) = db (view a) ->
             isAuthReady b = true -> db (view a) <> None -> uid <> "" ->
             historySubscribed b = true).
  { intros b Hu Hd Hr Hdb Hne. unfold historySubscribed. rewrite Hr, Hu, Hd.
    cbn [truthy_slot]. rewrite (truthy_str_true uid Hne).
    destruct (db (view a)); [reflexivity|now elim Hdb]. }
  destruct (getDoc env path) as [[data|]|message] eqn:Hget.
  - destruct (truthy_slot (profile_mbti data)) eqn:Ht; cbn [runAuth authReady app auth_calls].
    + split; [reflexivity|]. split; [reflexivity|]. split.
      { intros data' category Heq Hcat Hne. injection Heq as <-.
        cbn. rewrite Hcat. repeat split. }
      split.
      { intros [Hnone|(data' & Heq & Hf)]; [discriminate Hnone|].
        injection Heq as <-. rewrite Hf in Ht. discriminate Ht. }
      intros Hr Hdb Hne. now apply Hsub.
    + split; [reflexivity|]. split; [reflexivity|]. split.
      { intros data' category Heq Hcat Hne. injection Heq as <-.
        rewrite Hcat in Ht. cbn [truthy_slot] in Ht.
        rewrite (truthy_str_true category Hne) in Ht. discriminate Ht. }
      split; [intros _; repeat split|].
      intros Hr Hdb Hne. now apply Hsub.
  - cbn [runAuth authReady app auth_calls].
    split; [reflexivity|]. split; [reflexivity|].
    split; [intros data category Heq; discriminate Heq|].
    split; [intros _; repeat split|].
    intros Hr Hdb Hne. now apply Hsub.
  - cbn [runAuth app auth_calls].
    split; [reflexivity|]. split; [reflexivity|].
    split; [intros data category Heq; discriminate Heq|].
    split.
    { intros [Hnone|(data & Heq & _)]; [discriminate Hnone|discriminate Heq]. }
    intros Hr Hdb Hne. now apply Hsub.
Qed.

Lemma X18_witness :
  let env := sampleAuthEnv (Fulfilled (Some {| profile_mbti := Some "ENFJ" |})) true in
  let o := authEvent env sampleDeployment (Some "user-1") configuredAppState in
  studentMbti (view (app o)) = Some "ENFJ"
  /\ showMbtiModal (view (app o)) = false
  /\ historySubscribed (app o) = true.
Proof.
  intros env o.
  pose proof (X18_profile_read_decides_the_modal env sampleDeployment "user-1"
                configuredAppState) as H.
  cbv zeta in H. fold o in H.
  destruct H as (_ & _ & Hload & _ & Hsub).
  destruct (Hload {| profile_mbti := Some "ENFJ" |} "ENFJ" eq_refl eq_refl
                  ltac:(discriminate)) as (Hcat & Hmodal & Hready & _).
  split; [exact Hcat|]. split; [rewrite Hmodal; reflexivity|].
  exact (Hsub Hready ltac:(discriminate) ltac:(discriminate)).
Defined.

(** X19.  When the read of the profile document is rejected, the listener
    throws: the user id is already set, but the session is never marked
    ready, the modal is not opened and the category is not loaded.  Starting
    from a session that is not ready, the history is then not subscribed,
    while with a store handle submissions do write their records: they are
    stored and never listed. *)
Theorem X19_rejected_profile_read_leaves_the_session_unready
        (env : AuthEnv) (d : Deployment) (uid message : string) (a : AppState) :
  getDoc env ("/artifacts/" ++ appId (host d) ++ "/users/" ++ uid) = Rejected message ->
  let o := authEvent env d (Some uid) a in
  auth_uncaught o = Some message
  /\ userId (view (app o)) = Some uid
  /\ isAuthReady (app o) = isAuthReady a
  /\ showMbtiModal (view (app o)) = showMbtiModal (view a)
  /\ studentMbti (view (app o)) = studentMbti (view a)
  /\ error (view (app o)) = error (view a)
  /\ (isAuthReady a = false -> historySubscribed (app o) = false)
  /\ (db (view a) <> None -> uid <> "" -> storeReady (view (app o)) = true).
Proof.
  intros Hget o. subst o. unfold authEvent, onAuthStateChangedCallback.
  cbn [runAuth app]. rewrite Hget. cbn [runAuth app auth_uncaught].
  repeat (split; [reflexivity|]). split.
  - intros Hr. unfold historySubscribed. cbn. now rewrite Hr.
  - intros Hdb Hne. unfold storeReady. cbn.
    rewrite (truthy_str_true uid Hne). destruct (db (view a)); [reflexivity|now elim Hdb].
Qed.

Lemma X19_witness :
  let env := sampleAuthEnv (Rejected "permission-denied") true in
  let o := authEvent env sampleDeployment (Some "user-1") configuredAppState in
  auth_uncaught o = Some "permission-denied"
  /\ historySubscribed (app o) = false
  /\ storeReady (view (app o)) = true.
Proof.
  intros env o.
  pose proof (X19_rejected_profile_read_leaves_the_session_unready env sampleDeployment
                "user-1" "permission-denied" configuredAppState eq_refl) as H.
  cbv zeta in H. fold o in H.
  destruct H as (Hun & _ & _ & _ & _ & _ & Hsub & Hstore).
  split; [exact Hun|]. split; [exact (Hsub eq_refl)|].
  exact (Hstore ltac:(discriminate) ltac:(discriminate)).
Defined.

(** X20.  When the listener is called with no user, it signs in exactly
    once: with the configured token when one is set and not empty,
    anonymously otherwise; a rejected token is not followed by an anonymous
    attempt.  A rejected sign-in displays the sign-in message.  In every
    case the session is marked ready while the user id is left as it was, so
    with no user id the history is not subscribed. *)
Theorem X20_sign_in_once_token_first
        (env : AuthEnv) (d : Deployment) (a : AppState) :
  let o := authEvent env d None a in
  (forall token, initialAuthToken d = Some token -> token <> "" ->
     auth_calls o = [ReqSignInWithCustomToken token]
     /\ (forall message, signInWithCustomToken env token = Rejected message ->
                         error (view (app o)) = authFailedMessage)
     /\ (forall done, signInWithCustomToken env token = Fulfilled done ->
                      view (app o) = view a))
  /\ (truthy_slot (initialAuthToken d) = false ->
      auth_calls o = [ReqSignInAnonymously]
      /\ (forall message, signInAnonymously env = Rejected message ->
                          error (view (app o)) = authFailedMessage)
      /\ (forall done, signInAnonymously env = Fulfilled done -> view (app o) = view a))
  /\ isAuthReady (app o) = true
  /\ auth_uncaught o = None
  /\ userId (view (app o)) = userId (view a)
  /\ db (view (app o)) = db (view a)
  /\ (userId (view a) = None -> historySubscribed (app o) = false).
Proof.
  intros o. subst o. unfold authEvent, onAuthStateChangedCallback.
  assert (Hsub : forall b : AppState,
             userId (view b) = userId (view a) -> userId (view a) = None ->
             historySubscribed b = false).
  { intros b Hu Hnone. unfold historySubscribed. rewrite Hu, Hnone.
    cbn [truthy_slot]. now rewrite andb_false_r. }
  destruct (initialAuthToken d) as [token|] eqn:Htok.
  - destruct (truthy_str token) eqn:Ht; cbn [runAuth].
    + destruct (signInWithCustomToken env token) as [done|message] eqn:Hsign;
        cbn [runAuth authReady app auth_calls auth_uncaught].
      * split.
        { intros token' Heq Hne. injection Heq as Heq. subst token'.
          split; [reflexivity|].
          split; [intros m Hm; rewrite Hsign in Hm; discriminate Hm|].
          intros done' _. reflexivity. }
        split; [cbn [truthy_slot]; rewrite Ht; discriminate|].
        repeat (split; [reflexivity|]). intros Hnone. now apply Hsub.
      * split.
        { intros token' Heq Hne. injection Heq as Heq. subst token'.
          split; [reflexivity|]. split; [intros m _; reflexivity|].
          intros done Hd. rewrite Hsign in Hd. discriminate Hd. }
        split; [cbn [truthy_slot]; rewrite Ht; discriminate|].
        repeat (split; [reflexivity|]). intros Hnone. now apply Hsub.
    + destruct (signInAnonymously env) as [done|message] eqn:Hsign;
        cbn [runAuth authReady app auth_calls auth_uncaught].
      * split.
        { intros token' Heq Hne. injection Heq as Heq. subst token'.
          rewrite (truthy_str_true token Hne) in Ht. discriminate Ht. }
        split.
        { intros _. split; [reflexivity|]. split; [intros m Hm; discriminate Hm|].
          intros done' _. reflexivity. }
        repeat (split; [reflexivity|]). intros Hnone. now apply Hsub.
      * split.
        { intros token' Heq Hne. injection Heq as Heq. subst token'.
          rewrite (truthy_str_true token Hne) in Ht. discriminate Ht. }
        split.
        { intros _. split; [reflexivity|]. split; [intros m _; reflexivity|].
          intros done Hd. discriminate Hd. }
        repeat (split; [reflexivity|]). intros Hnone. now apply Hsub.
  - cbn [runAuth].
    destruct (signInAnonymously env) as [done|message] eqn:Hsign;
      cbn [runAuth authReady app auth_calls auth_uncaught].
    + split; [intros token Heq; discriminate Heq|].
      split.
      { intros _. split; [reflexivity|]. split; [intros m Hm; discriminate Hm|].
        intros done' _. reflexivity. }
      repeat (split; [reflexivity|]). intros Hnone. now apply Hsub.
    + split; [intros token Heq; discriminate Heq|].
      split.
      { intros _. split; [reflexivity|]. split; [intros m _; reflexivity|].
        intros done Hd. discriminate Hd. }
      repeat (split; [reflexivity|]). intros Hnone. now apply Hsub.
Qed.

Lemma X20_witness :
  let d := {| host := sampleHost; hasApiKey := true; initialAuthToken := Some "ticket" |} in
  let env := sampleAuthEnv (Fulfilled None) false in
  let o := authEvent env d None configuredAppState in
  auth_calls o = [ReqSignInWithCustomToken "ticket"]
  /\ error (view (app o)) = authFailedMessage
  /\ historySubscribed (app o) = false.
Proof.
  intros d env o.
  pose proof (X20_sign_in_once_token_first env d configuredAppState) as H.
  cbv zeta in H. fold o in H.
  destruct H as (Htoken & _ & _ & _ & _ & _ & Hsub).
  destruct (Htoken "ticket" eq_refl ltac:(discriminate)) as (Hcalls & Hrej & _).
  split; [exact Hcalls|]. split; [exact (Hrej "network" eq_refl)|exact (Hsub eq_refl)].
Defined.

(** X21.  A category saved from the modal is the one loaded at the next
    start: once the store has accepted the write, the listener called with
    the same user over that store sets the session's category to the saved
    choice, does not open the modal and marks the session ready; a later
    save takes the place of an earlier one. *)
Theorem X21_saved_category_is_loaded_at_next_start
        (d : Deployment) (env : Env) (choice uid : string) (saved : unit)
        (s : State) (rm : Remote) (a : AppState) :
  storeReady s = true ->
  userId s = Some uid ->
  choice <> "" ->
  setDoc env (userDocPath (host d) s) choice = Fulfilled saved ->
  let stored := remote (invoke env (handleMbtiSelect (host d) choice) s rm) in
  let o := authEvent (storeAuthEnv stored) d (Some uid) a in
  storedProfile stored (userDocPath (host d) s)
  = Fulfilled (Some {| profile_mbti := Some choice |})
  /\ studentMbti (view (app o)) = Some choice
  /\ showMbtiModal (view (app o)) = showMbtiModal (view a)
  /\ isAuthReady (app o) = true
  /\ auth_uncaught o = None.
Proof.
  intros Hst Hu Hne Hset stored o. subst o stored.
  rewrite (handleMbtiSelect_saved (host d) env choice saved s rm Hst Hset). cbn [remote].
  assert (Hpath : userDocPath (host d) s
                  = ("/artifacts/" ++ appId (host d) ++ "/users/" ++ uid)%string).
  { unfold userDocPath. now rewrite Hu. }
  assert (Hstored : storedProfile (remote_setDoc (userDocPath (host d) s) choice rm)
                                  (userDocPath (host d) s)
                    = Fulfilled (Some {| profile_mbti := Some choice |})).
  { unfold storedProfile, remote_setDoc. cbn [merged assoc]. now rewrite String.eqb_refl. }
  split; [exact Hstored|].
  unfold authEvent, onAuthStateChangedCallback. cbn [runAuth storeAuthEnv getDoc].
  rewrite <- Hpath, Hstored. cbn [profile_mbti truthy_slot].
  rewrite (truthy_str_true choice Hne). cbn. repeat split.
Qed.

Lemma X21_witness :
  let s := setShowMbtiModal true (session "mentor" "" None) in
  let env := sampleEnv failedReply true in
  let stored := remote (invoke env (handleMbtiSelect sampleHost "INFJ") s emptyRemote) in
  let o := authEvent (storeAuthEnv stored) sampleDeployment (Some "user-1")
                     configuredAppState in
  studentMbti (view (app o)) = Some "INFJ" /\ showMbtiModal (view (app o)) = false.
Proof.
  intros s env stored o.
  pose proof (X21_saved_category_is_loaded_at_next_start sampleDeployment env "INFJ" "user-1"
                tt s emptyRemote configuredAppState
                eq_refl eq_refl ltac:(discriminate) eq_refl) as H.
  cbv zeta in H. destruct H as (_ & Hcat & Hmodal & _).
  split; [exact Hcat|exact (eq_trans Hmodal eq_refl)].
Defined.
